(** * Verification of the TypeScript service layer of the language server

    Source: [packages/language-server/src/plugins/typescript/service.ts].

    The file is organised after the source:
    - [Ts]: the few enumerations of the TypeScript compiler API that the
      source names;
    - [Container]: the closure created by [createLanguageService], i.e. the
      snapshot cache, the module-resolution cache, the live language service
      and the operations [updateSnapshot], [deleteSnapshot], [getSnapshot],
      [updateTsOrJsFile], [hasFile];
    - [Config]: [getParsedConfig], [getDefaultJsConfig], [getDefaultExclude];
    - [Registry]: the module-level [services] map with [getService],
      [getServiceForTsconfig] and [hasServiceForFile];
    - [Service]: the container as [createLanguageService] assembles it, with
      [host.getScriptFileNames] and [fileBelongsToProject]. *)

From Stdlib Require Import ZArith.
From stdpp Require Import gmap strings list fin_maps pretty.

Local Open Scope string_scope.

(* ===================================================================== *)
(** ** The TypeScript API enumerations used by the source *)
(* ===================================================================== *)

Module Ts.

(** [ts.ScriptKind]. *)
Inductive ScriptKind :=
  | Unknown | JS | JSX | TS | TSX | External | JSON | Deferred.

#[global] Instance ScriptKind_eq_dec : EqDecision ScriptKind.
Proof. solve_decision. Defined.

End Ts.

(* ===================================================================== *)
(** ** The project container: the closure of [createLanguageService] *)
(* ===================================================================== *)

Module Container.
Import Ts.

(** [Document] of [lib/documents]: the editor's view of a file.
    [getFilePath()] is [string | null]. *)
Record Document := {
  getFilePath : option string;
  docVersion : Z;
  docText : string
}.

(** [DocumentSnapshot]: the fields the source reads ([version],
    [scriptKind]) and those the data model of the specification lists. *)
Record DocumentSnapshot := {
  version : Z;
  filePath : string;
  scriptKind : ScriptKind;
  text : string
}.

#[global] Instance DocumentSnapshot_eq_dec : EqDecision DocumentSnapshot.
Proof. solve_decision. Defined.

(** [transformationConfig] of the closure. *)
Record TransformationConfig := {
  strictMode : bool;
  transformOnTemplateError : bool
}.

(** The side effects a container operation performs, in the order the
    source performs them. *)
Inductive Effect :=
  | EReadDisk (path : string)          (* the disk read of [DocumentSnapshot.fromFilePath] *)
  | EFromDocument (path : string)      (* [DocumentSnapshot.fromDocument] *)
  | EPurgeUnresolved (path : string)   (* [deleteUnresolvedResolutionsFromCache] *)
  | EPurgeResolved (path : string)     (* [deleteFromModuleCache] *)
  | ECacheSet (path : string)          (* [snapshotManager.set] *)
  | ECacheDelete (path : string)       (* [snapshotManager.delete] *)
  | EDispose (instance : nat)          (* [languageService.dispose()] *)
  | ECreateService (instance : nat).   (* [ts.createLanguageService(host)] *)

#[global] Instance Effect_eq_dec : EqDecision Effect.
Proof. solve_decision. Defined.

(** Modelled from the spec: the class [SnapshotManager] (./SnapshotManager)
    is defined outside service.ts.  Section 3 gives its state as
    [{ snapshots: map<path, Snapshot>, projectFileNames, rawConfig }]; the
    raw configuration plays no role in the operations below. *)
Record SnapshotManager := {
  documents : gmap string DocumentSnapshot;
  projectFiles : list string
}.

(** Modelled from the spec: the resolution cache of ./module-loader, which is
    defined outside service.ts.  Section 3:
    [map<(fromFile, moduleSpecifier), ResolvedModuleOrFailure>]; a failure is
    [None], a success carries the resolved file name. *)
Abbreviation ResolutionCache := (gmap (string * string) (option string)).

(** The mutable state captured by the closure of [createLanguageService]:
    [snapshotManager], the cache inside [svelteModuleLoader], and the [let]
    variable [languageService].  Language-service instances are objects; an
    instance is identified by its creation index, [servicesCreated] counts the
    calls of [ts.createLanguageService] so far. *)
Record ContainerState := {
  snapshotManager : SnapshotManager;
  moduleCache : ResolutionCache;
  languageService : nat;
  servicesCreated : nat;
  disposedServices : list nat;
  effects : list Effect
}.

(** A small state monad for the closure. *)
Definition Host (A : Type) : Type := ContainerState → A * ContainerState.

#[global] Instance Host_ret : MRet Host := λ A a st, (a, st).
#[global] Instance Host_bind : MBind Host :=
  λ A B f m st, let '(a, st') := m st in f a st'.

Definition gets {A} (f : ContainerState → A) : Host A := λ st, (f st, st).
Definition modify (f : ContainerState → ContainerState) : Host unit :=
  λ st, (tt, f st).
Definition exec {A} (m : Host A) (st : ContainerState) : ContainerState :=
  (m st).2.
Definition eval {A} (m : Host A) (st : ContainerState) : A := (m st).1.

Definition emit (e : Effect) : Host unit :=
  modify (λ st,
    {| snapshotManager := snapshotManager st;
       moduleCache := moduleCache st;
       languageService := languageService st;
       servicesCreated := servicesCreated st;
       disposedServices := disposedServices st;
       effects := effects st ++ [e] |}).

Definition setSnapshotManager (m : SnapshotManager) : Host unit :=
  modify (λ st,
    {| snapshotManager := m;
       moduleCache := moduleCache st;
       languageService := languageService st;
       servicesCreated := servicesCreated st;
       disposedServices := disposedServices st;
       effects := effects st |}).

Definition setModuleCache (c : ResolutionCache) : Host unit :=
  modify (λ st,
    {| snapshotManager := snapshotManager st;
       moduleCache := c;
       languageService := languageService st;
       servicesCreated := servicesCreated st;
       disposedServices := disposedServices st;
       effects := effects st |}).

(** *** [SnapshotManager]: [get], [set], [delete], [has] *)

(** Modelled from the spec: [SnapshotManager.get], missing with its class;
    section 4.3, [get(path) -> Snapshot | absent]. *)
Definition SnapshotManager_get (fileName : string) : Host (option DocumentSnapshot) :=
  gets (λ st, documents (snapshotManager st) !! fileName).

(** Modelled from the spec: [SnapshotManager.set], missing with its class;
    section 4.3, [set(path, snapshot)] is an unconditional overwrite. *)
Definition SnapshotManager_set (fileName : string) (snapshot : DocumentSnapshot)
  : Host unit :=
  m ← gets snapshotManager;
  _ ← emit (ECacheSet fileName);
  setSnapshotManager
    {| documents := <[fileName := snapshot]> (documents m);
       projectFiles := projectFiles m |}.

(** Modelled from the spec: [SnapshotManager.delete], missing with its class;
    section 4.3, [delete(path)] removes the entry. *)
Definition SnapshotManager_delete (fileName : string) : Host unit :=
  m ← gets snapshotManager;
  _ ← emit (ECacheDelete fileName);
  setSnapshotManager
    {| documents := delete fileName (documents m);
       projectFiles := projectFiles m |}.

(** Modelled from the spec: [SnapshotManager.has], missing with its class;
    section 4.5, [hasFile] is a pure cache membership test, and the source
    defines [hasFile] as [snapshotManager.has]. *)
Definition SnapshotManager_has (fileName : string) : Host bool :=
  gets (λ st, bool_decide (is_Some (documents (snapshotManager st) !! fileName))).

Section Closure.

(** What the closure captures from its environment. *)

(** [ts.sys.readFile]: the content of a file on disk, if it can be read. *)
Variable readFile : string → option string.

(** [DocumentSnapshot.fromDocument(document, transformationConfig)]
    of ./DocumentSnapshot. *)
Variable fromDocument : Document → TransformationConfig → DocumentSnapshot.

(** The snapshot [DocumentSnapshot.fromFilePath] builds for a path out of the
    content it read from disk, classifying the script kind on the way
    (./DocumentSnapshot; the source passes [docContext.createDocument] and
    [transformationConfig] on to it). *)
Variable snapshotOfFile :
  string → option string → TransformationConfig → DocumentSnapshot.

(** [ensureRealSvelteFilePath] of ./utils. *)
Variable ensureRealSvelteFilePath : string → string.

(** The cache keys [(fromFile, specifier)] that the purge of the module
    loader selects for a path: those whose specifier it takes to denote the
    file at that path (./module-loader). *)
Variable mayDenote : string * string → string → bool.

Variable transformationConfig : TransformationConfig.

(** Modelled from the spec: [DocumentSnapshot.fromFilePath] of
    ./DocumentSnapshot, which is missing; section 4.3, [updateFromDisk]: it
    reads the file from disk and classifies it. *)
Definition DocumentSnapshot_fromFilePath (fileName : string) : Host DocumentSnapshot :=
  _ ← emit (EReadDisk fileName);
  mret (snapshotOfFile fileName (readFile fileName) transformationConfig).

Definition DocumentSnapshot_fromDocument (document : Document) : Host DocumentSnapshot :=
  _ ← emit (EFromDocument (default "" (getFilePath document)));
  mret (fromDocument document transformationConfig).

(** An entry recorded as unresolved that the file at [path] could satisfy. *)
Definition staleFor (path : string) (entry : (string * string) * option string) : Prop :=
  entry.2 = None ∧ mayDenote entry.1 path = true.

#[local] Instance staleFor_dec path entry : Decision (staleFor path entry).
Proof. unfold staleFor. apply _. Defined.

(** Modelled from the spec: [deleteUnresolvedResolutionsFromCache] of
    ./module-loader, which is missing; sections 3 and 4.4: purge the entries
    recorded as unresolved that the file at [path] could satisfy. *)
Definition deleteUnresolvedResolutionsFromCache (path : string) : Host unit :=
  c ← gets moduleCache;
  _ ← emit (EPurgeUnresolved path);
  setModuleCache (filter (λ entry, ¬ staleFor path entry) c).

(** Modelled from the spec: [deleteFromModuleCache] of ./module-loader, which
    is missing; section 4.5, [deleteSnapshot]: remove the resolution cache
    entries associated with [path], i.e. those resolved to it. *)
Definition deleteFromModuleCache (path : string) : Host unit :=
  c ← gets moduleCache;
  _ ← emit (EPurgeResolved path);
  setModuleCache (filter (λ entry : (string * string) * option string,
                            entry.2 ≠ Some path) c).

(** [languageService.dispose(); languageService = ts.createLanguageService(host)]. *)
Definition restartLanguageService : Host unit :=
  old ← gets languageService;
  fresh ← gets servicesCreated;
  _ ← emit (EDispose old);
  _ ← emit (ECreateService fresh);
  modify (λ st,
    {| snapshotManager := snapshotManager st;
       moduleCache := moduleCache st;
       languageService := fresh;
       servicesCreated := S fresh;
       disposedServices := old :: disposedServices st;
       effects := effects st |}).

(** [getService: () => languageService]. *)
Definition getService : Host nat := gets languageService.

(** [function deleteSnapshot(filePath)]. *)
Definition deleteSnapshot (filePath : string) : Host unit :=
  _ ← deleteFromModuleCache filePath;
  SnapshotManager_delete filePath.

(** [function updateSnapshotFromDocument(document)].  [changed] is the part
    of the body after the early return. *)
Definition updateSnapshotFromDocument (document : Document) : Host DocumentSnapshot :=
  let filePath := default "" (getFilePath document) in
  prevSnapshot ← SnapshotManager_get filePath;
  let changed : Host DocumentSnapshot :=
    _ ← (if prevSnapshot is None
         then deleteUnresolvedResolutionsFromCache filePath else mret tt);
    newSnapshot ← DocumentSnapshot_fromDocument document;
    _ ← SnapshotManager_set filePath newSnapshot;
    _ ← (match prevSnapshot with
         | Some prev =>
             if bool_decide (scriptKind prev ≠ scriptKind newSnapshot)
             then restartLanguageService else mret tt
         | None => mret tt
         end);
    mret newSnapshot in
  match prevSnapshot with
  | Some prev =>
      (* prevSnapshot?.version === document.version *)
      if bool_decide (version prev = docVersion document) then mret prev
      else changed
  | None => changed
  end.

(** [function updateSnapshotFromFilePath(filePath)]. *)
Definition updateSnapshotFromFilePath (filePath : string) : Host DocumentSnapshot :=
  prevSnapshot ← SnapshotManager_get filePath;
  match prevSnapshot with
  | Some prev => mret prev
  | None =>
      _ ← deleteUnresolvedResolutionsFromCache filePath;
      newSnapshot ← DocumentSnapshot_fromFilePath filePath;
      _ ← SnapshotManager_set filePath newSnapshot;
      mret newSnapshot
  end.

(** [function updateSnapshot(documentOrFilePath: Document | string)]. *)
Definition updateSnapshot (documentOrFilePath : Document + string)
  : Host DocumentSnapshot :=
  match documentOrFilePath with
  | inr filePath => updateSnapshotFromFilePath filePath
  | inl document => updateSnapshotFromDocument document
  end.

(** [function getSnapshot(fileName)]. *)
Definition getSnapshot (fileName : string) : Host DocumentSnapshot :=
  let fileName := ensureRealSvelteFilePath fileName in
  doc ← SnapshotManager_get fileName;
  match doc with
  | Some doc => mret doc
  | None =>
      _ ← deleteUnresolvedResolutionsFromCache fileName;
      doc ← DocumentSnapshot_fromFilePath fileName;
      _ ← SnapshotManager_set fileName doc;
      mret doc
  end.

(** [function hasFile(filePath)]. *)
Definition hasFile (filePath : string) : Host bool := SnapshotManager_has filePath.

(** The three entries of [host] that read snapshots. *)
Definition getScriptVersion (fileName : string) : Host string :=
  s ← getSnapshot fileName; mret (pretty (version s)).
Definition getScriptSnapshot (fileName : string) : Host DocumentSnapshot :=
  getSnapshot fileName.
Definition getScriptKind (fileName : string) : Host ScriptKind :=
  s ← getSnapshot fileName; mret (scriptKind s).

(** [TextDocumentContentChangeEvent] of the language-server protocol. *)
Record TextDocumentContentChangeEvent := {
  changeRange : option ((nat * nat) * (nat * nat));
  changeText : string
}.

(** How [SnapshotManager.updateTsOrJsFile] edits a snapshot
    (./SnapshotManager). *)
Variable editSnapshot :
  DocumentSnapshot → option (list TextDocumentContentChangeEvent) → DocumentSnapshot.

(** Modelled from the spec: [SnapshotManager.updateTsOrJsFile], missing with
    its class; section 4.5: it applies the edits to the cached content of a
    file and creates the snapshot if it is absent. *)
Definition SnapshotManager_updateTsOrJsFile
    (fileName : string) (changes : option (list TextDocumentContentChangeEvent))
  : Host unit :=
  prev ← SnapshotManager_get fileName;
  base ← match prev with
         | Some p => mret p
         | None => DocumentSnapshot_fromFilePath fileName
         end;
  SnapshotManager_set fileName (editSnapshot base changes).

(** [function updateTsOrJsFile(fileName, changes?)]. *)
Definition updateTsOrJsFile
    (fileName : string) (changes : option (list TextDocumentContentChangeEvent))
  : Host unit :=
  known ← SnapshotManager_has fileName;
  _ ← (if negb known then deleteUnresolvedResolutionsFromCache fileName
       else mret tt);
  SnapshotManager_updateTsOrJsFile fileName changes.

(** The file list that the configuration declares, as the file system is
    now. *)
Variable declaredFiles : list string.

(** Modelled from the spec: [SnapshotManager.updateProjectFiles], missing with
    its class; section 4.5: it re-derives the declared file list from the
    configuration. *)
Definition SnapshotManager_updateProjectFiles : Host unit :=
  m ← gets snapshotManager;
  setSnapshotManager {| documents := documents m; projectFiles := declaredFiles |}.

(** [function updateProjectFiles()]. *)
Definition updateProjectFiles : Host unit := SnapshotManager_updateProjectFiles.

(** The module resolution the engine would compute from scratch for a cache
    key, on the file system as it is now (./module-loader). *)
Variable resolve : string * string → option string.

(** The resolved files for which the module loader asks the snapshot
    accessor it was created with, [createSvelteModuleLoader(getSnapshot,
    compilerOptions)]: the files of the templating extension. *)
Variable consultsSnapshot : string → bool.

(** Modelled from the spec: [resolveModuleNames] of ./module-loader, which is
    missing, for one module name; sections 3, 4.4 and 7: a resolution is
    answered from the resolution cache when the key is recorded there,
    failures included; otherwise it is computed, the loader consults the
    snapshot cache through [getSnapshot] for a resolved file of the
    templating extension, and the result is recorded. *)
Definition resolveModuleName (key : string * string) : Host (option string) :=
  c ← gets moduleCache;
  match c !! key with
  | Some cached => mret cached
  | None =>
      let r := resolve key in
      _ ← match r with
          | Some target =>
              if consultsSnapshot target
              then _ ← getSnapshot target; mret tt
              else mret tt
          | None => mret tt
          end;
      c ← gets moduleCache;
      _ ← setModuleCache (<[key := r]> c);
      mret r
  end.

(** The calls that reach the closure: the operations of the returned
    container and the snapshot accessor handed to the engine. *)
Inductive Operation :=
  | OpUpdateSnapshot (documentOrFilePath : Document + string)
  | OpDeleteSnapshot (filePath : string)
  | OpUpdateTsOrJsFile (fileName : string)
                       (changes : option (list TextDocumentContentChangeEvent))
  | OpUpdateProjectFiles
  | OpGetSnapshot (fileName : string)
  | OpResolveModuleName (key : string * string).

Definition perform (op : Operation) : Host unit :=
  match op with
  | OpUpdateSnapshot d => _ ← updateSnapshot d; mret tt
  | OpDeleteSnapshot p => deleteSnapshot p
  | OpUpdateTsOrJsFile f c => updateTsOrJsFile f c
  | OpUpdateProjectFiles => updateProjectFiles
  | OpGetSnapshot f => _ ← getSnapshot f; mret tt
  | OpResolveModuleName k => _ ← resolveModuleName k; mret tt
  end.

(** The state right after [createLanguageService] built the container:
    [new SnapshotManager(files, ...)], an empty resolution cache and the first
    [ts.createLanguageService(host)]. *)
Definition initialState (files : list string) : ContainerState :=
  {| snapshotManager := {| documents := ∅; projectFiles := files |};
     moduleCache := ∅;
     languageService := 0;
     servicesCreated := 1;
     disposedServices := [];
     effects := [ECreateService 0] |}.

Inductive reachable : ContainerState → Prop :=
  | reachable_init files : reachable (initialState files)
  | reachable_step op st : reachable st → reachable (exec (perform op) st).

(** The live instance is one that was created and not disposed of. *)
Definition live (st : ContainerState) : Prop :=
  languageService st < servicesCreated st
  ∧ (languageService st ∉ disposedServices st)
  ∧ Forall (λ i, i < servicesCreated st) (disposedServices st).


(** *** Proofs about the closure *)

Ltac host_unfold :=
  unfold perform, resolveModuleName, getScriptVersion, getScriptSnapshot,
    getScriptKind,
    updateSnapshot, updateSnapshotFromDocument,
    updateSnapshotFromFilePath, getSnapshot, updateTsOrJsFile,
    SnapshotManager_updateTsOrJsFile, updateProjectFiles,
    SnapshotManager_updateProjectFiles, deleteSnapshot, hasFile, getService,
    restartLanguageService,
    deleteUnresolvedResolutionsFromCache, deleteFromModuleCache,
    DocumentSnapshot_fromFilePath, DocumentSnapshot_fromDocument,
    SnapshotManager_get, SnapshotManager_set, SnapshotManager_delete,
    SnapshotManager_has, setSnapshotManager, setModuleCache, emit,
    exec, eval, gets, modify, mbind, mret, Host_bind, Host_ret in *;
  simpl in *.

Lemma initialState_live files : live (initialState files).
Proof.
  unfold live, initialState; simpl. split; [lia|].
  split; [apply not_elem_of_nil | constructor].
Qed.

Lemma perform_live op st : live st → live (exec (perform op) st).
Proof.
  intros Hlive.
  destruct op as [[document | path] | path | fileName changes | | fileName | key].
  - host_unfold.
    destruct (documents (snapshotManager st) !! default "" (getFilePath document))
      as [prev|]; simpl; [|exact Hlive].
    case_bool_decide; simpl; [exact Hlive|].
    case_bool_decide; simpl; [|exact Hlive].
    destruct Hlive as (Hlt & Hnot & Hall). unfold live; simpl.
    split; [lia|]. split.
    + intros Hin. apply elem_of_cons in Hin as [Heq | Hin]; [lia|].
      rewrite Forall_forall in Hall. apply Hall in Hin. lia.
    + constructor; [lia|].
      eapply Forall_impl; [exact Hall|]. simpl. intros; lia.
  - host_unfold.
    destruct (documents (snapshotManager st) !! path); simpl; exact Hlive.
  - host_unfold. exact Hlive.
  - host_unfold. case_bool_decide; simpl;
      destruct (documents (snapshotManager st) !! fileName); simpl; exact Hlive.
  - host_unfold. exact Hlive.
  - host_unfold.
    destruct (documents (snapshotManager st) !! ensureRealSvelteFilePath fileName);
      simpl; exact Hlive.
  - host_unfold. destruct (moduleCache st !! key); simpl; [exact Hlive|].
    destruct (resolve key) as [target|]; simpl; [|exact Hlive].
    destruct (consultsSnapshot target); simpl; [|exact Hlive].
    destruct (documents (snapshotManager st) !! ensureRealSvelteFilePath target);
      simpl; exact Hlive.
Qed.

Lemma reachable_live st : reachable st → live st.
Proof.
  induction 1 as [files | op st _ IH].
  - apply initialState_live.
  - by apply perform_live.
Qed.

(** C2. When the cached snapshot of the document's path has the version of
    the document, [updateSnapshot] returns that cached snapshot and leaves
    the whole state of the container as it was: nothing is created, the
    snapshot cache is not written, no effect is performed, the version the
    engine reads through [getScriptVersion] is the same for every file, and
    [getService] returns the instance it returned before.  Repeating the call
    gives the same result once more. *)
Theorem updateSnapshot_same_version_unchanged
    (st : ContainerState) (document : Document) (prev : DocumentSnapshot) :
  documents (snapshotManager st) !! default "" (getFilePath document) = Some prev →
  version prev = docVersion document →
  let st' := exec (updateSnapshot (inl document)) st in
  eval (updateSnapshot (inl document)) st = prev
  ∧ st' = st
  ∧ documents (snapshotManager st') = documents (snapshotManager st)
  ∧ effects st' = effects st
  ∧ (∀ fileName,
       eval (getScriptVersion fileName) st' = eval (getScriptVersion fileName) st)
  ∧ eval getService st' = eval getService st
  ∧ servicesCreated st' = servicesCreated st
  ∧ updateSnapshot (inl document) st' = (prev, st).
Proof.
  intros Hprev Hver st'.
  assert (Hrun : updateSnapshot (inl document) st = (prev, st)).
  { host_unfold. rewrite Hprev. simpl. by rewrite bool_decide_eq_true_2. }
  assert (Hst : st' = st) by (unfold st', exec; by rewrite Hrun).
  rewrite Hst. unfold eval. rewrite Hrun. simpl. done.
Qed.

(** C3. On a container in a reachable state, with a snapshot cached for the
    document's path whose version differs from the document's:
    if the new snapshot has another script kind than the cached one, the
    live instance is disposed of and a new one is constructed, so
    [getService] returns an instance that is not the previous one (nor any
    earlier one); if the script kind is the same, [getService] returns the
    same instance as before and no instance is created or disposed of. *)
Theorem updateSnapshot_scriptKind_restart
    (st : ContainerState) (document : Document) (prev : DocumentSnapshot) :
  reachable st →
  documents (snapshotManager st) !! default "" (getFilePath document) = Some prev →
  version prev ≠ docVersion document →
  let newSnapshot := fromDocument document transformationConfig in
  let st' := exec (updateSnapshot (inl document)) st in
  eval (updateSnapshot (inl document)) st = newSnapshot
  ∧ (scriptKind prev ≠ scriptKind newSnapshot →
       eval getService st' ≠ eval getService st
       ∧ eval getService st ∈ disposedServices st'
       ∧ eval getService st' = servicesCreated st
       ∧ (eval getService st' ∉ disposedServices st')
       ∧ servicesCreated st' = S (servicesCreated st)
       ∧ effects st' =
           (effects st ++
            [EFromDocument (default "" (getFilePath document));
             ECacheSet (default "" (getFilePath document));
             EDispose (eval getService st);
             ECreateService (eval getService st')])%list)
  ∧ (scriptKind prev = scriptKind newSnapshot →
       eval getService st' = eval getService st
       ∧ disposedServices st' = disposedServices st
       ∧ servicesCreated st' = servicesCreated st).
Proof.
  intros Hreach Hprev Hver newSnapshot st'.
  pose proof (reachable_live _ Hreach) as (Hlt & Hnot & Hall).
  subst st' newSnapshot. host_unfold. rewrite Hprev. simpl.
  rewrite bool_decide_eq_false_2 by done. simpl.
  split; [by case_bool_decide|]. split.
  - intros Hkind. rewrite bool_decide_eq_true_2 by done. simpl.
    split; [lia|]. split; [by left|].
    split; [done|]. split.
    + intros Hin. apply elem_of_cons in Hin as [Heq | Hin]; [lia|].
      rewrite Forall_forall in Hall. apply Hall in Hin. lia.
    + split; [done|]. by rewrite <- !app_assoc.
  - intros Hkind. rewrite bool_decide_eq_false_2 by (intros Hne; by apply Hne).
    done.
Qed.

(** C6, as amended.  [updateSnapshot] with a bare file path returns the cached
    snapshot and leaves the state untouched (no disk read) when the path has
    a snapshot; only when it has none does it read the file from disk,
    classify it and store the new snapshot. *)
Theorem updateSnapshot_filePath_reads_when_absent
    (st : ContainerState) (filePath : string) :
  match documents (snapshotManager st) !! filePath with
  | Some prev => updateSnapshot (inr filePath) st = (prev, st)
  | None =>
      let fresh := snapshotOfFile filePath (readFile filePath) transformationConfig in
      let st' := exec (updateSnapshot (inr filePath)) st in
      eval (updateSnapshot (inr filePath)) st = fresh
      ∧ documents (snapshotManager st') =
          <[filePath := fresh]> (documents (snapshotManager st))
      ∧ effects st' =
          (effects st ++
           [EPurgeUnresolved filePath; EReadDisk filePath; ECacheSet filePath])%list
  end.
Proof.
  destruct (documents (snapshotManager st) !! filePath) as [prev|] eqn:Hprev.
  - host_unfold. by rewrite Hprev.
  - host_unfold. rewrite Hprev. simpl. by rewrite <- !app_assoc.
Qed.

(** C8. [deleteSnapshot p] always returns: it leaves the snapshot cache
    without an entry for [p] (the cache with [p] deleted, which is the cache
    itself when [p] had no snapshot) and the resolution cache without any
    entry resolved to [p], every other entry being kept; [hasFile p] is then
    false. *)
Theorem deleteSnapshot_removes (st : ContainerState) (p : string) :
  ∃ st', deleteSnapshot p st = (tt, st')
    ∧ documents (snapshotManager st') = delete p (documents (snapshotManager st))
    ∧ documents (snapshotManager st') !! p = None
    ∧ match documents (snapshotManager st) !! p with
      | None => documents (snapshotManager st') = documents (snapshotManager st)
      | Some _ => True
      end
    ∧ (∀ key, moduleCache st' !! key ≠ Some (Some p))
    ∧ (∀ key r, moduleCache st' !! key = Some r ↔
                 moduleCache st !! key = Some r ∧ r ≠ Some p)
    ∧ eval (hasFile p) st' = false.
Proof.
  eexists. split; [reflexivity|]. host_unfold.
  split; [done|]. split; [apply lookup_delete_eq|]. split.
  { destruct (documents (snapshotManager st) !! p) eqn:Hp; [done|].
    by apply delete_id. }
  split.
  { intros key Hkey. apply map_lookup_filter_Some in Hkey as [_ Hne].
    by apply Hne. }
  split.
  { intros key r. by rewrite map_lookup_filter_Some. }
  rewrite lookup_delete_eq. apply bool_decide_eq_false_2.
  by intros [? ?].
Qed.

(** C10. The snapshot accessor handed to the engine always returns a
    snapshot.  With [real] the path [ensureRealSvelteFilePath] gives for the
    requested name: the snapshot returned is the cached one of [real] (state
    left as it was) or, when none is cached, the one created from disk, which
    is then stored under [real]; in both cases the cache holds the returned
    snapshot under [real] afterwards and [hasFile real] is true.
    [getScriptSnapshot], [getScriptVersion] and [getScriptKind] are this
    accessor and two of its fields. *)
Theorem getSnapshot_total (st : ContainerState) (fileName : string) :
  let real := ensureRealSvelteFilePath fileName in
  ∃ snap st',
    getSnapshot fileName st = (snap, st')
    ∧ documents (snapshotManager st') !! real = Some snap
    ∧ eval (hasFile real) st' = true
    ∧ match documents (snapshotManager st) !! real with
      | Some cached => snap = cached ∧ st' = st
      | None =>
          snap = snapshotOfFile real (readFile real) transformationConfig
          ∧ documents (snapshotManager st') =
              <[real := snap]> (documents (snapshotManager st))
          ∧ effects st' =
              (effects st ++
               [EPurgeUnresolved real; EReadDisk real; ECacheSet real])%list
      end
    ∧ getScriptSnapshot fileName st = (snap, st')
    ∧ getScriptVersion fileName st = (pretty (version snap), st')
    ∧ getScriptKind fileName st = (scriptKind snap, st').
Proof.
  intros real. subst real.
  destruct (documents (snapshotManager st) !! ensureRealSvelteFilePath fileName)
    as [cached|] eqn:Hdoc.
  - exists cached, st. host_unfold. rewrite !Hdoc. simpl.
    done.
  - host_unfold. rewrite !Hdoc. simpl.
    eexists _, _. split; [reflexivity|]. simpl.
    rewrite lookup_insert_eq, <- !app_assoc. done.
Qed.







(** *** Further properties of the closure *)

(** The path an [updateSnapshot] call is about: [document.getFilePath() || '']
    or the path itself. *)
Definition updateTarget (documentOrFilePath : Document + string) : string :=
  match documentOrFilePath with
  | inl document => default "" (getFilePath document)
  | inr filePath => filePath
  end.

(** The path a call names, if it names one: a module resolution and
    [updateProjectFiles] name none. *)
Definition touched (op : Operation) : option string :=
  match op with
  | OpUpdateSnapshot d => Some (updateTarget d)
  | OpDeleteSnapshot p => Some p
  | OpUpdateTsOrJsFile f _ => Some f
  | OpUpdateProjectFiles => None
  | OpGetSnapshot f => Some (ensureRealSvelteFilePath f)
  | OpResolveModuleName _ => None
  end.

(** The path whose snapshot a call can write, if any: the path the call
    names, or, for a module resolution, the resolved file for which the
    module loader asks the snapshot accessor. *)
Definition written (op : Operation) : option string :=
  match op with
  | OpResolveModuleName key =>
      match resolve key with
      | Some target =>
          if consultsSnapshot target
          then Some (ensureRealSvelteFilePath target) else None
      | None => None
      end
  | _ => touched op
  end.

(** X1. What [updateSnapshot] returns is what the engine reads next: right
    after an [updateSnapshot] for a path, the snapshot accessor asked for a
    name standing for that path returns the very snapshot [updateSnapshot]
    returned, and that read changes nothing. *)
Theorem updateSnapshot_then_getSnapshot
    (st : ContainerState) (d : Document + string) (fileName : string) :
  ensureRealSvelteFilePath fileName = updateTarget d →
  getSnapshot fileName (exec (updateSnapshot d) st) = updateSnapshot d st.
Proof.
  intros Hreal. destruct d as [document | fp]; simpl in Hreal.
  - host_unfold. rewrite Hreal.
    destruct (documents (snapshotManager st) !! default "" (getFilePath document))
      as [prev|] eqn:Hprev; simpl.
    + case_bool_decide; simpl.
      * by rewrite Hprev.
      * case_bool_decide; simpl; by rewrite lookup_insert_eq.
    + by rewrite lookup_insert_eq.
  - host_unfold. rewrite Hreal.
    destruct (documents (snapshotManager st) !! fp) as [prev|] eqn:Hprev; simpl.
    + by rewrite Hprev.
    + by rewrite lookup_insert_eq.
Qed.

(** X2. After [deleteSnapshot] for a path, the next [updateSnapshot] for that
    path starts afresh: with a bare path the file is read from disk again,
    with a document the snapshot is built from the document whatever its
    version; the new snapshot is stored, and the language service is not
    restarted, even if the script kind differs from the deleted snapshot's. *)
Theorem deleteSnapshot_then_updateSnapshot
    (st : ContainerState) (d : Document + string) :
  let p := updateTarget d in
  let st1 := exec (deleteSnapshot p) st in
  let fresh :=
    match d with
    | inl document => fromDocument document transformationConfig
    | inr _ => snapshotOfFile p (readFile p) transformationConfig
    end in
  eval (updateSnapshot d) st1 = fresh
  ∧ documents (snapshotManager (exec (updateSnapshot d) st1)) !! p = Some fresh
  ∧ languageService (exec (updateSnapshot d) st1) = languageService st
  ∧ servicesCreated (exec (updateSnapshot d) st1) = servicesCreated st
  ∧ effects (exec (updateSnapshot d) st1) =
      (effects st ++
       [ EPurgeResolved p; ECacheDelete p; EPurgeUnresolved p;
         match d with
         | inl _ => EFromDocument p
         | inr _ => EReadDisk p
         end;
         ECacheSet p ])%list.
Proof.
  destruct d as [document | fp]; simpl; host_unfold;
    rewrite lookup_delete_eq; simpl; rewrite lookup_insert_eq, <- !app_assoc; done.
Qed.

(** X3. A call writes the snapshot of one path at most, the path it names
    or, for a module resolution, the resolved file the module loader asks a
    snapshot for: the snapshot of every other path is after the call what it
    was before. *)
Theorem perform_other_paths_unchanged
    (op : Operation) (st : ContainerState) (q : string) :
  written op ≠ Some q →
  documents (snapshotManager (exec (perform op) st)) !! q
  = documents (snapshotManager st) !! q.
Proof.
  intros Hq.
  destruct op as [[document | fp] | fp | fp changes | | fileName | key];
    simpl in Hq.
  - assert (default "" (getFilePath document) ≠ q) as Hne by congruence.
    host_unfold.
    destruct (documents (snapshotManager st) !! default "" (getFilePath document));
      simpl; repeat (case_bool_decide; simpl); try done;
      by rewrite lookup_insert_ne.
  - assert (fp ≠ q) as Hne by congruence. host_unfold.
    destruct (documents (snapshotManager st) !! fp); simpl; [done|].
    by rewrite lookup_insert_ne.
  - assert (fp ≠ q) as Hne by congruence. host_unfold.
    by rewrite lookup_delete_ne.
  - assert (fp ≠ q) as Hne by congruence. host_unfold.
    destruct (documents (snapshotManager st) !! fp) eqn:Hfp; simpl;
      rewrite ?Hfp; simpl; by rewrite lookup_insert_ne.
  - by host_unfold.
  - assert (ensureRealSvelteFilePath fileName ≠ q) as Hne by congruence.
    host_unfold.
    destruct (documents (snapshotManager st) !! ensureRealSvelteFilePath fileName);
      simpl; [done|]. by rewrite lookup_insert_ne.
  - host_unfold. destruct (moduleCache st !! key); simpl; [done|].
    destruct (resolve key) as [target|]; simpl in *; [|done].
    destruct (consultsSnapshot target); simpl; [|done].
    assert (ensureRealSvelteFilePath target ≠ q) as Hne by congruence.
    destruct (documents (snapshotManager st) !! ensureRealSvelteFilePath target);
      simpl; [done|]. by rewrite lookup_insert_ne.
Qed.

(** X4. On a container in a reachable state, a call replaces the language
    service exactly when it is an [updateSnapshot] with a document whose
    path has a cached snapshot of another version and of another script
    kind than the new one.  No other call restarts it: not [updateSnapshot]
    for a new file or with a bare path, not [deleteSnapshot], not
    [updateTsOrJsFile], not the reads of the engine.  A call creates one
    instance at most. *)
Theorem restart_only_on_scriptKind_change (op : Operation) (st : ContainerState) :
  reachable st →
  let st' := exec (perform op) st in
  (languageService st' ≠ languageService st ↔
     ∃ document prev,
       op = OpUpdateSnapshot (inl document)
       ∧ documents (snapshotManager st) !! default "" (getFilePath document)
           = Some prev
       ∧ version prev ≠ docVersion document
       ∧ scriptKind prev ≠ scriptKind (fromDocument document transformationConfig))
  ∧ (servicesCreated st' ≤ S (servicesCreated st))%nat.
Proof.
  intros Hreach st'. pose proof (reachable_live _ Hreach) as (Hlt & _ & _).
  subst st'.
  destruct op as [[document | fp] | fp | fp changes | | fileName | key].
  - host_unfold.
    destruct (documents (snapshotManager st) !! default "" (getFilePath document))
      as [prev|] eqn:Hprev; simpl.
    + case_bool_decide as Hver; simpl.
      * split; [|lia]. split; [done|].
        intros (d' & prev' & Hop & Hp' & Hv' & _). simplify_eq.
      * case_bool_decide as Hkind; simpl.
        -- split; [|lia]. split; [|lia].
           intros _. exists document, prev. by rewrite Hprev.
        -- split; [|lia]. split; [done|].
           intros (d' & prev' & Hop & Hp' & _ & Hk'). simplify_eq.
    + split; [|lia]. split; [done|].
      intros (d' & prev' & Hop & Hp' & _). simplify_eq.
  - host_unfold.
    destruct (documents (snapshotManager st) !! fp); simpl;
      (split; [|lia]); (split; [done|]); by intros (? & ? & ? & _).
  - host_unfold. split; [|lia]. split; [done|]. by intros (? & ? & ? & _).
  - host_unfold.
    destruct (documents (snapshotManager st) !! fp) eqn:Hfp; simpl;
      rewrite ?Hfp; simpl;
      (split; [|lia]); (split; [done|]); by intros (? & ? & ? & _).
  - host_unfold. split; [|lia]. split; [done|]. by intros (? & ? & ? & _).
  - host_unfold.
    destruct (documents (snapshotManager st) !! ensureRealSvelteFilePath fileName);
      simpl; (split; [|lia]); (split; [done|]); by intros (? & ? & ? & _).
  - host_unfold.
    destruct (moduleCache st !! key); simpl;
      [(split; [|lia]); (split; [done|]); by intros (? & ? & ? & _)|].
    destruct (resolve key) as [target|]; simpl;
      [|(split; [|lia]); (split; [done|]); by intros (? & ? & ? & _)].
    destruct (consultsSnapshot target); simpl;
      [|(split; [|lia]); (split; [done|]); by intros (? & ? & ? & _)].
    destruct (documents (snapshotManager st) !! ensureRealSvelteFilePath target);
      simpl; (split; [|lia]); (split; [done|]); by intros (? & ? & ? & _).
Qed.

(** The instances a container went through: the live one is the latest
    created, all earlier ones were disposed of, the latest first. *)
Definition noLeak (st : ContainerState) : Prop :=
  servicesCreated st = S (languageService st)
  ∧ disposedServices st = reverse (seq 0 (languageService st)).

Lemma perform_noLeak (op : Operation) (st : ContainerState) :
  noLeak st → noLeak (exec (perform op) st).
Proof.
  intros [Hcreated Hdisposed].
  destruct op as [[document | fp] | fp | fp changes | | fileName | key].
  - host_unfold.
    destruct (documents (snapshotManager st) !! default "" (getFilePath document))
      as [prev|]; simpl; [|done].
    case_bool_decide; simpl; [done|].
    case_bool_decide; simpl; [|done].
    split; simpl; [done|].
    rewrite Hcreated, Hdisposed, seq_S, reverse_app. done.
  - host_unfold. by destruct (documents (snapshotManager st) !! fp).
  - by host_unfold.
  - host_unfold.
    destruct (documents (snapshotManager st) !! fp) eqn:Hfp; simpl;
      rewrite ?Hfp; done.
  - by host_unfold.
  - host_unfold.
    by destruct (documents (snapshotManager st) !! ensureRealSvelteFilePath fileName).
  - host_unfold. destruct (moduleCache st !! key); simpl; [done|].
    destruct (resolve key) as [target|]; simpl; [|done].
    destruct (consultsSnapshot target); simpl; [|done].
    by destruct (documents (snapshotManager st) !! ensureRealSvelteFilePath target).
Qed.

(** X5. A container never leaks a language service: in every reachable
    state the live instance is the one created last, and every instance
    created before it has been disposed of, once each. *)
Theorem reachable_no_leak (st : ContainerState) :
  reachable st →
  servicesCreated st = S (languageService st)
  ∧ disposedServices st = reverse (seq 0 (languageService st))
  ∧ NoDup (languageService st :: disposedServices st)
  ∧ (∀ i, i < servicesCreated st ↔ i = languageService st ∨ i ∈ disposedServices st).
Proof.
  intros Hreach.
  assert (noLeak st) as [Hcreated Hdisposed].
  { induction Hreach as [files | op st _ IH]; [by split|].
    by apply perform_noLeak. }
  split; [done|]. split; [done|]. rewrite Hdisposed, Hcreated. split.
  - apply NoDup_cons. split.
    + rewrite elem_of_reverse, elem_of_seq. lia.
    + rewrite reverse_Permutation. apply NoDup_seq.
  - intros i. rewrite elem_of_reverse, elem_of_seq. lia.
Qed.

(** X6. A call about a path that has a snapshot leaves the resolution cache
    as it is, [deleteSnapshot] apart: editing or re-reading a known file
    purges nothing. *)
Theorem known_file_keeps_resolution_cache
    (op : Operation) (st : ContainerState) (p : string) :
  touched op = Some p →
  is_Some (documents (snapshotManager st) !! p) →
  (∀ q, op ≠ OpDeleteSnapshot q) →
  moduleCache (exec (perform op) st) = moduleCache st.
Proof.
  intros Htouched [snap Hsnap] Hop.
  destruct op as [[document | fp] | fp | fp changes | | fileName | key];
    simpl in Htouched; simplify_eq.
  - host_unfold. rewrite Hsnap. simpl.
    by repeat (case_bool_decide; simpl).
  - host_unfold. by rewrite Hsnap.
  - by destruct (Hop p).
  - host_unfold. rewrite Hsnap. simpl. by rewrite Hsnap.
  - host_unfold. by rewrite Hsnap.
Qed.

End Closure.

(** *** A small world to run the closure on *)

Definition exampleConfig : TransformationConfig :=
  {| strictMode := false; transformOnTemplateError := true |}.

(** A document is classified by its text: a TypeScript script block gives
    [TSX], anything else [JSX]. *)
Definition exampleFromDocument (d : Document) (_ : TransformationConfig)
  : DocumentSnapshot :=
  {| version := docVersion d;
     filePath := default "" (getFilePath d);
     scriptKind := if bool_decide (docText d = "<script lang=ts>") then TSX else JSX;
     text := docText d |}.

Definition exampleSnapshotOfFile
    (path : string) (content : option string) (_ : TransformationConfig)
  : DocumentSnapshot :=
  {| version := 0; filePath := path; scriptKind := TS; text := default "" content |}.

(** A disk with one file, [/w/a.ts], of the given content. *)
Definition exampleDisk (content : string) (path : string) : option string :=
  if bool_decide (path = "/w/a.ts") then Some content else None.

(** A name ending in [.svelte.ts] stands for the Svelte file without the
    appended [.ts]. *)
Definition exampleRealPath (fileName : string) : string :=
  let n := String.length fileName in
  if String.eqb (String.substring (n - 10) 10 fileName) ".svelte.ts"
  then String.substring 0 (n - 3) fileName
  else fileName.

Definition exampleMayDenote (key : string * string) (path : string) : bool :=
  bool_decide (key.2 = "./a" ∧ path = "/w/a.ts").

Definition exampleEdit
    (s : DocumentSnapshot) (changes : option (list TextDocumentContentChangeEvent))
  : DocumentSnapshot :=
  {| version := version s + 1; filePath := filePath s; scriptKind := scriptKind s;
     text := match changes with
             | Some (c :: _) => changeText c
             | _ => text s
             end |}.

(** Resolution on a disk that has, or has not yet, the file [/w/a.ts]. *)
Definition exampleResolve (present : bool) (key : string * string) : option string :=
  if present && bool_decide (key.2 = "./a") then Some "/w/a.ts" else None.

(** The module loader asks a snapshot for the Svelte files. *)
Definition exampleConsults (target : string) : bool :=
  String.eqb (String.substring (String.length target - 7) 7 target) ".svelte".

Definition examplePerform (content : string) (present : bool) : Operation → Host unit :=
  perform (exampleDisk content) exampleFromDocument exampleSnapshotOfFile
    exampleRealPath exampleMayDenote exampleConfig exampleEdit [] (exampleResolve present)
    exampleConsults.

Definition exampleReachable (content : string) (present : bool)
  : ContainerState → Prop :=
  reachable (exampleDisk content) exampleFromDocument exampleSnapshotOfFile
    exampleRealPath exampleMayDenote exampleConfig exampleEdit [] (exampleResolve present)
    exampleConsults.

Definition svelteDocument (v : Z) (content : string) : Document :=
  {| getFilePath := Some "/w/App.svelte"; docVersion := v; docText := content |}.

(** [App.svelte] opened at version 1 with a plain script. *)
Definition stateWithSvelte : ContainerState :=
  exec (examplePerform "old" true (OpUpdateSnapshot (inl (svelteDocument 1 "<script>"))))
       (initialState []).

(** [x.ts] imports [./a] before [/w/a.ts] exists: the failure is recorded. *)
Definition stateWithFailure : ContainerState :=
  exec (examplePerform "old" false (OpResolveModuleName ("/w/x.ts", "./a")))
       (initialState ["/w/x.ts"]).

(** [/w/a.ts] was read from disk when its content was ["old"]. *)
Definition stateWithFile : ContainerState :=
  exec (examplePerform "old" true (OpUpdateSnapshot (inr "/w/a.ts")))
       (initialState []).

Lemma stateWithSvelte_reachable : exampleReachable "old" true stateWithSvelte.
Proof. apply reachable_step, reachable_init. Qed.

Example getScriptVersion_virtual_name :
  let read :=
    getScriptVersion (exampleDisk "old") exampleSnapshotOfFile exampleRealPath
      exampleMayDenote exampleConfig "/w/App.svelte.ts" in
  eval read (initialState []) = "0"
  ∧ eval (hasFile "/w/App.svelte") (exec read (initialState [])) = true
  ∧ eval (hasFile "/w/App.svelte.ts") (exec read (initialState [])) = false
  ∧ effects (exec read (initialState [])) =
      [ ECreateService 0; EPurgeUnresolved "/w/App.svelte";
        EReadDisk "/w/App.svelte"; ECacheSet "/w/App.svelte" ].
Proof. repeat split; reflexivity. Qed.

Example deleteSnapshot_then_hasFile :
  eval (hasFile "/w/a.ts") stateWithFile = true
  ∧ eval (hasFile "/w/a.ts")
      (exec (deleteSnapshot "/w/a.ts") stateWithFile) = false
  ∧ eval (hasFile "/w/b.ts")
      (exec (deleteSnapshot "/w/b.ts") stateWithFile) = false.
Proof. repeat split; reflexivity. Qed.

Example updateTsOrJsFile_creates :
  let st := exec (examplePerform "old" true (OpUpdateTsOrJsFile "/w/a.ts" None))
                 stateWithFailure in
  moduleCache stateWithFailure !! ("/w/x.ts", "./a") = Some None
  ∧ moduleCache st !! ("/w/x.ts", "./a") = None
  ∧ text <$> documents (snapshotManager st) !! "/w/a.ts" = Some "old".
Proof. repeat split; reflexivity. Qed.

(** Witness of C2: the document of [App.svelte] at the cached version 1. *)
Lemma updateSnapshot_same_version_witness :
  exec (updateSnapshot (exampleDisk "old") exampleFromDocument exampleSnapshotOfFile
          exampleMayDenote exampleConfig (inl (svelteDocument 1 "<script lang=ts>")))
       stateWithSvelte
  = stateWithSvelte.
Proof.
  refine (proj1 (proj2
    (updateSnapshot_same_version_unchanged (exampleDisk "old") exampleFromDocument
       exampleSnapshotOfFile exampleRealPath exampleMayDenote exampleConfig
       stateWithSvelte (svelteDocument 1 "<script lang=ts>")
       (exampleFromDocument (svelteDocument 1 "<script>") exampleConfig) _ _)));
    reflexivity.
Defined.

(** Witness of C3: [App.svelte] goes from a plain script to TypeScript. *)
Lemma updateSnapshot_scriptKind_restart_witness :
  eval getService
    (exec (updateSnapshot (exampleDisk "old") exampleFromDocument exampleSnapshotOfFile
             exampleMayDenote exampleConfig (inl (svelteDocument 2 "<script lang=ts>")))
          stateWithSvelte)
  ≠ eval getService stateWithSvelte.
Proof.
  refine (proj1 (proj1 (proj2
    (updateSnapshot_scriptKind_restart (exampleDisk "old") exampleFromDocument
       exampleSnapshotOfFile exampleRealPath exampleMayDenote exampleConfig exampleEdit
       [] (exampleResolve true) exampleConsults stateWithSvelte (svelteDocument 2 "<script lang=ts>")
       (exampleFromDocument (svelteDocument 1 "<script>") exampleConfig)
       stateWithSvelte_reachable _ _)) _)).
  - reflexivity.
  - discriminate.
  - discriminate.
Defined.


(** A purge that goes by the name of the file: it selects the keys whose
    specifier contains the name of the file without its ending. *)
Fixpoint includes (s part : string) : bool :=
  String.prefix part s
  || match s with
     | EmptyString => false
     | String _ rest => includes rest part
     end.

Fixpoint lastPartOfPath (seen path : string) : string :=
  match path with
  | EmptyString => seen
  | String c rest =>
      if String.eqb (String c "") "/" then lastPartOfPath "" rest
      else lastPartOfPath (seen +:+ String c "") rest
  end.

Fixpoint beforeFirstDot (name : string) : string :=
  match name with
  | EmptyString => ""
  | String c rest =>
      if String.eqb (String c "") "." then "" else String c (beforeFirstDot rest)
  end.

Definition selectsByName (key : string * string) (path : string) : bool :=
  includes key.2 (beforeFirstDot (lastPartOfPath "" path)).





Example selectsByName_examples :
  selectsByName ("/w/x.ts", "./a") "/w/a.ts" = true
  ∧ selectsByName ("/w/x.ts", "./lib/index") "/w/lib/index.ts" = true
  ∧ selectsByName ("/w/x.ts", "./lib") "/w/lib/index.ts" = false.
Proof. repeat split; reflexivity. Qed.


(** Witness of X1: the engine asks for [App.svelte.ts] after an update of
    [App.svelte]. *)
Lemma updateSnapshot_then_getSnapshot_witness :
  getSnapshot (exampleDisk "old") exampleSnapshotOfFile exampleRealPath
    exampleMayDenote exampleConfig "/w/App.svelte.ts"
    (exec (updateSnapshot (exampleDisk "old") exampleFromDocument
             exampleSnapshotOfFile exampleMayDenote exampleConfig
             (inl (svelteDocument 2 "<script lang=ts>")))
          stateWithSvelte)
  = updateSnapshot (exampleDisk "old") exampleFromDocument exampleSnapshotOfFile
      exampleMayDenote exampleConfig (inl (svelteDocument 2 "<script lang=ts>"))
      stateWithSvelte.
Proof.
  apply (updateSnapshot_then_getSnapshot (exampleDisk "old") exampleFromDocument
           exampleSnapshotOfFile exampleRealPath exampleMayDenote exampleConfig
           stateWithSvelte (inl (svelteDocument 2 "<script lang=ts>"))
           "/w/App.svelte.ts").
  reflexivity.
Defined.

(** Witness of X3: deleting [/w/a.ts] leaves [App.svelte] alone. *)
Lemma perform_other_paths_unchanged_witness :
  documents (snapshotManager
     (exec (examplePerform "old" true (OpDeleteSnapshot "/w/a.ts")) stateWithSvelte))
    !! "/w/App.svelte"
  = documents (snapshotManager stateWithSvelte) !! "/w/App.svelte".
Proof.
  apply (perform_other_paths_unchanged (exampleDisk "old") exampleFromDocument
           exampleSnapshotOfFile exampleRealPath exampleMayDenote exampleConfig
           exampleEdit [] (exampleResolve true) exampleConsults
           (OpDeleteSnapshot "/w/a.ts") stateWithSvelte "/w/App.svelte").
  discriminate.
Defined.

(** Witness of X4: [App.svelte] goes from a plain script to TypeScript. *)
Lemma restart_only_on_scriptKind_change_witness :
  languageService
    (exec (examplePerform "old" true
             (OpUpdateSnapshot (inl (svelteDocument 2 "<script lang=ts>"))))
          stateWithSvelte)
  ≠ languageService stateWithSvelte.
Proof.
  apply (proj2 (proj1
    (restart_only_on_scriptKind_change (exampleDisk "old") exampleFromDocument
       exampleSnapshotOfFile exampleRealPath exampleMayDenote exampleConfig
       exampleEdit [] (exampleResolve true) exampleConsults
       (OpUpdateSnapshot (inl (svelteDocument 2 "<script lang=ts>")))
       stateWithSvelte stateWithSvelte_reachable))).
  exists (svelteDocument 2 "<script lang=ts>"),
         (exampleFromDocument (svelteDocument 1 "<script>") exampleConfig).
  split; [reflexivity|]. split; [reflexivity|]. split; discriminate.
Defined.

(** Witness of X5: the container with [App.svelte] open. *)
Lemma reachable_no_leak_witness :
  servicesCreated stateWithSvelte = S (languageService stateWithSvelte).
Proof.
  apply (reachable_no_leak (exampleDisk "old") exampleFromDocument
           exampleSnapshotOfFile exampleRealPath exampleMayDenote exampleConfig
           exampleEdit [] (exampleResolve true) exampleConsults
           stateWithSvelte stateWithSvelte_reachable).
Defined.

(** Witness of X6: an edit of the known file [/w/a.ts]. *)
Lemma known_file_keeps_resolution_cache_witness :
  moduleCache
    (exec (examplePerform "old" true (OpUpdateTsOrJsFile "/w/a.ts" None))
          stateWithFile)
  = moduleCache stateWithFile.
Proof.
  apply (known_file_keeps_resolution_cache (exampleDisk "old") exampleFromDocument
           exampleSnapshotOfFile exampleRealPath exampleMayDenote exampleConfig
           exampleEdit [] (exampleResolve true) exampleConsults
           (OpUpdateTsOrJsFile "/w/a.ts" None) stateWithFile "/w/a.ts").
  - reflexivity.
  - vm_compute. by eexists.
  - discriminate.
Defined.

(** Counterexample to C6 as stated: [/w/a.ts] is cached with the content
    ["old"]; the file on disk now reads ["new"].  [updateSnapshot] with the
    bare path returns the cached snapshot, which is not the one the disk
    would give, and performs no effect at all: the disk is not read. *)
Lemma updateSnapshot_filePath_cached_not_reread :
  let update :=
    updateSnapshot (exampleDisk "new") exampleFromDocument exampleSnapshotOfFile
      exampleMayDenote exampleConfig (inr "/w/a.ts") in
  documents (snapshotManager stateWithFile) !! "/w/a.ts"
    = Some (exampleSnapshotOfFile "/w/a.ts" (Some "old") exampleConfig)
  ∧ text (eval update stateWithFile) = "old"
  ∧ eval update stateWithFile
      ≠ exampleSnapshotOfFile "/w/a.ts" (exampleDisk "new" "/w/a.ts") exampleConfig
  ∧ effects (exec update stateWithFile) = effects stateWithFile
  ∧ (EReadDisk "/w/a.ts" ∉
       drop (length (effects stateWithFile)) (effects (exec update stateWithFile))).
Proof.
  split; [reflexivity|]. split; [reflexivity|]. split; [discriminate|].
  split; [reflexivity|]. vm_compute. apply not_elem_of_nil.
Defined.

End Container.

(* ===================================================================== *)
(** ** Config resolution: [getParsedConfig] *)
(* ===================================================================== *)

Module Config.
Import Ts.

(** A JSON value, as [ts.readConfigFile] returns it and as the values of
    [ts.CompilerOptions] are. *)
#[local] Unset Elimination Schemes.
Inductive JsonValue :=
  | JNull
  | JBool (b : bool)
  | JNum (n : Z)
  | JStr (s : string)
  | JArr (items : list JsonValue)
  | JObj (fields : list (string * JsonValue)).
#[local] Set Elimination Schemes.

(** A JavaScript object used as a record of JSON values: the configuration
    object and [ts.CompilerOptions]. *)
Abbreviation JsObject := (gmap string JsonValue).

(** JavaScript truthiness of a property read: an absent property reads as
    [undefined]. *)
Definition truthy (v : option JsonValue) : bool :=
  match v with
  | None => false
  | Some JNull => false
  | Some (JBool b) => b
  | Some (JNum n) => negb (n =? 0)%Z
  | Some (JStr s) => negb (String.eqb s "")
  | Some (JArr _) => true
  | Some (JObj _) => true
  end.

(** [s.startsWith(prefix)]. *)
Definition startsWith (s prefix : string) : bool := String.prefix prefix s.

(** The entry of [extraFileExtensions] the source passes to the parser. *)
Record FileExtensionInfo := {
  extension : string;
  isMixedContent : bool;
  extScriptKind : ScriptKind
}.

(** [ts.ParsedCommandLine]: the fields the source reads. *)
Record ParsedCommandLine := {
  options : JsObject;
  fileNames : list string;
  raw : JsObject
}.

(** The result of [getPackageInfo] (../../importPackage). *)
Record PackageInfo := { pkgPath : string }.

Section GetParsedConfig.

(** The members of the TypeScript enumerations named by the source. *)
Variable ScriptTarget_Latest : Z.
Variable ModuleKind_ESNext : Z.
Variable ModuleResolutionKind_NodeJs : Z.
Variable JsxEmit_Preserve : Z.
(** [ts.ScriptKind.Deferred] is [undefined] in older TypeScript versions. *)
Variable ScriptKind_Deferred : option ScriptKind.

(** [ignoredBuildDirectories] of ./SnapshotManager. *)
Variable ignoredBuildDirectories : list string.

(** [ts.readConfigFile(path, ts.sys.readFile).config]: the configuration
    object, or [None] for a falsy value. *)
Variable readConfigFile : string → option JsObject.

(** [ts.parseJsonConfigFileContent(json, ts.sys, basePath, existingOptions,
    configFileName, undefined, extraFileExtensions)]; it follows the
    [extends] chain of the configuration. *)
Variable parseJsonConfigFileContent :
  JsObject → string → JsObject → string → list FileExtensionInfo → ParsedCommandLine.

(** [getPackageInfo(name, fromPath)]; [None] when it throws. *)
Variable getPackageInfo : string → string → option PackageInfo.

(** [dirname] of the [path] module. *)
Variable dirname : string → string.

(** [const forcedCompilerOptions: ts.CompilerOptions = {...}]. *)
Definition forcedCompilerOptions : JsObject :=
  list_to_map
    [ ("allowNonTsExtensions", JBool true);
      ("target", JNum ScriptTarget_Latest);
      ("module", JNum ModuleKind_ESNext);
      ("moduleResolution", JNum ModuleResolutionKind_NodeJs);
      ("allowJs", JBool true);
      ("noEmit", JBool true);
      ("declaration", JBool false);
      ("skipLibCheck", JBool true);
      ("jsx", JNum JsxEmit_Preserve) ].

(** [function getDefaultJsConfig()]. *)
Definition getDefaultJsConfig : JsObject :=
  list_to_map
    [ ("compilerOptions",
       JObj [ ("maxNodeModuleJsDepth", JNum 2);
              ("allowSyntheticDefaultImports", JBool true) ]);
      ("include", JArr []) ].

(** [function getDefaultExclude()]. *)
Definition getDefaultExclude : list string :=
  "node_modules" :: ignoredBuildDirectories.

(** [const workspacePath = tsconfigPath ? dirname(tsconfigPath) : ''] of
    [createLanguageService]. *)
Definition workspacePathOf (tsconfigPath : string) : string :=
  if String.eqb tsconfigPath "" then "" else dirname tsconfigPath.

(** [(tsconfigPath && ts.readConfigFile(...).config) || getDefaultJsConfig()]. *)
Definition loadConfigJson (tsconfigPath : string) : JsObject :=
  let loaded :=
    if String.eqb tsconfigPath "" then None else readConfigFile tsconfigPath in
  match loaded with
  | Some configJson => configJson
  | None => getDefaultJsConfig
  end.

(** [if (!configJson.extends) configJson = Object.assign({exclude: ...}, configJson)].
    [Object.assign] copies the properties of [configJson] over the object
    holding the default. *)
Definition withDefaultExclude (configJson : JsObject) : JsObject :=
  if negb (truthy (configJson !! "extends"))
  then configJson ∪ {[ "exclude" := JArr (JStr <$> getDefaultExclude) ]}
  else configJson.

(** The detection of the JSX namespace at the end of [getParsedConfig].
    [None] is the [TypeError] of calling [startsWith] on a truthy value that
    is not a string. *)
Definition detectJsxFactory (workspacePath : string) (compilerOptions : JsObject)
  : option JsObject :=
  let fallback :=
    let jsxFactory :=
      if String.eqb workspacePath "" then "svelte.createElement"
      else
        match getPackageInfo "svelte-native" workspacePath with
        | Some info =>
            if String.eqb (pkgPath info) "" then "svelte.createElement"
            else "svelteNative.createElement"
        | None => "svelte.createElement"
        end in
    <["jsxFactory" := JStr jsxFactory]> compilerOptions in
  let current := compilerOptions !! "jsxFactory" in
  if negb (truthy current) then Some fallback
  else
    match current with
    | Some (JStr factory) =>
        if negb (startsWith factory "svelte") then Some fallback
        else Some compilerOptions
    | _ => None
    end.

(** [function getParsedConfig()], for the [tsconfigPath] of the closure. *)
Definition getParsedConfig (tsconfigPath : string) : option ParsedCommandLine :=
  let workspacePath := workspacePathOf tsconfigPath in
  let configJson := withDefaultExclude (loadConfigJson tsconfigPath) in
  let parsedConfig :=
    parseJsonConfigFileContent configJson workspacePath forcedCompilerOptions
      tsconfigPath
      [ {| extension := "svelte"; isMixedContent := true;
           extScriptKind := default TSX ScriptKind_Deferred |} ] in
  (* {...parsedConfig.options, ...forcedCompilerOptions} *)
  let compilerOptions := forcedCompilerOptions ∪ options parsedConfig in
  compilerOptions ← detectJsxFactory workspacePath compilerOptions;
  Some {| options := compilerOptions;
          fileNames := fileNames parsedConfig;
          raw := raw parsedConfig |}.

(** *** Proofs about the configuration *)

Lemma forced_no_jsxFactory : forcedCompilerOptions !! "jsxFactory" = None.
Proof. reflexivity. Qed.

Lemma detectJsxFactory_other
    (workspacePath : string) (compilerOptions result : JsObject) (k : string) :
  detectJsxFactory workspacePath compilerOptions = Some result →
  k ≠ "jsxFactory" →
  result !! k = compilerOptions !! k.
Proof.
  unfold detectJsxFactory. intros Hdetect Hk.
  destruct (negb (truthy (compilerOptions !! "jsxFactory"))).
  { injection Hdetect as <-. by rewrite lookup_insert_ne. }
  destruct (compilerOptions !! "jsxFactory") as [[| | |factory| |]|]; try discriminate.
  destruct (negb (startsWith factory "svelte")); injection Hdetect as <-;
    [by rewrite lookup_insert_ne | done].
Qed.

Lemma detectJsxFactory_throws (workspacePath : string) (compilerOptions : JsObject) :
  detectJsxFactory workspacePath compilerOptions = None →
  truthy (compilerOptions !! "jsxFactory") = true
  ∧ ∀ s, compilerOptions !! "jsxFactory" ≠ Some (JStr s).
Proof.
  unfold detectJsxFactory. intros Hdetect.
  destruct (truthy (compilerOptions !! "jsxFactory")) eqn:Htruthy; simpl in *;
    [|discriminate].
  split; [done|]. intros s Hs. rewrite Hs in Hdetect.
  by destruct (negb (startsWith s "svelte")).
Qed.

(** C5. Whatever the configuration file holds and whatever the parser makes
    of it (extended configurations included), the options [getParsedConfig]
    returns contain every forced option with its forced value; the nine are
    listed.  [getParsedConfig] returns such a result unless the parser
    delivered a [jsxFactory] that is truthy and not a string. *)
Theorem getParsedConfig_forced_options (tsconfigPath : string) :
  let parsedConfig :=
    parseJsonConfigFileContent
      (withDefaultExclude (loadConfigJson tsconfigPath))
      (workspacePathOf tsconfigPath) forcedCompilerOptions tsconfigPath
      [ {| extension := "svelte"; isMixedContent := true;
           extScriptKind := default TSX ScriptKind_Deferred |} ] in
  match getParsedConfig tsconfigPath with
  | Some result =>
      forcedCompilerOptions ⊆ options result
      ∧ options result !! "noEmit" = Some (JBool true)
      ∧ options result !! "declaration" = Some (JBool false)
      ∧ options result !! "allowJs" = Some (JBool true)
      ∧ options result !! "allowNonTsExtensions" = Some (JBool true)
      ∧ options result !! "target" = Some (JNum ScriptTarget_Latest)
      ∧ options result !! "module" = Some (JNum ModuleKind_ESNext)
      ∧ options result !! "moduleResolution" = Some (JNum ModuleResolutionKind_NodeJs)
      ∧ options result !! "skipLibCheck" = Some (JBool true)
      ∧ options result !! "jsx" = Some (JNum JsxEmit_Preserve)
  | None =>
      truthy (options parsedConfig !! "jsxFactory") = true
      ∧ ∀ s, options parsedConfig !! "jsxFactory" ≠ Some (JStr s)
  end.
Proof.
  intros parsedConfig. unfold getParsedConfig. fold parsedConfig.
  destruct (detectJsxFactory (workspacePathOf tsconfigPath)
              (forcedCompilerOptions ∪ options parsedConfig))
    as [compilerOptions|] eqn:Hdetect; simpl.
  - assert (Hforced : ∀ k v, forcedCompilerOptions !! k = Some v →
                             compilerOptions !! k = Some v).
    { intros k v Hk.
      rewrite (detectJsxFactory_other _ _ _ k Hdetect).
      - by apply lookup_union_Some_l.
      - intros ->. by rewrite forced_no_jsxFactory in Hk. }
    split; [by apply map_subseteq_spec|].
    repeat split; by apply Hforced.
  - apply detectJsxFactory_throws in Hdetect as [Htruthy Hstr].
    rewrite lookup_union_r in Htruthy by apply forced_no_jsxFactory.
    split; [done|]. intros s Hs. apply (Hstr s).
    by rewrite lookup_union_r by apply forced_no_jsxFactory.
Qed.

Lemma assign_over_default (configJson : JsObject) (k : string) (v : JsonValue) :
  configJson ∪ {[ k := v ]} =
  match configJson !! k with
  | Some _ => configJson
  | None => <[k := v]> configJson
  end.
Proof.
  apply map_eq. intros i. rewrite lookup_union.
  destruct (decide (k = i)) as [<-|Hne].
  - rewrite lookup_singleton_eq.
    destruct (configJson !! k) as [own|] eqn:Hown; simpl.
    + by rewrite Hown.
    + by rewrite lookup_insert_eq.
  - rewrite lookup_singleton_ne by done.
    destruct (configJson !! k) eqn:Hown.
    + by destruct (configJson !! i).
    + rewrite lookup_insert_ne by done. by destruct (configJson !! i).
Qed.

(** C7, as amended.  The object handed to the parser is the loaded
    configuration itself when its [extends] value is truthy or when it has
    an [exclude] property of its own; otherwise (the [extends] property is
    absent or falsy, and there is no [exclude]) it is the loaded
    configuration with [exclude] set to the default list, [node_modules]
    followed by the ignored build directories.  Without a configuration file
    the loaded configuration is the default one, whose [include] is empty
    and stays so. *)
Theorem default_exclude_policy (configJson : JsObject) :
  withDefaultExclude configJson =
    (if truthy (configJson !! "extends") then configJson
     else match configJson !! "exclude" with
          | Some _ => configJson
          | None =>
              <["exclude" := JArr (JStr <$> ("node_modules" :: ignoredBuildDirectories))]>
                configJson
          end)
  ∧ loadConfigJson "" = getDefaultJsConfig
  ∧ getDefaultJsConfig !! "include" = Some (JArr [])
  ∧ withDefaultExclude (loadConfigJson "") !! "include" = Some (JArr [])
  ∧ withDefaultExclude (loadConfigJson "") !! "exclude" =
      Some (JArr (JStr <$> ("node_modules" :: ignoredBuildDirectories))).
Proof.
  split.
  { unfold withDefaultExclude.
    destruct (truthy (configJson !! "extends")); simpl; [done|].
    apply assign_over_default. }
  split; [done|]. split; [done|].
  unfold loadConfigJson, withDefaultExclude. simpl.
  rewrite assign_over_default. done.
Qed.

(** *** Further properties of the configuration *)

(** The parser's result inside [getParsedConfig]. *)
Definition parsedConfigOf (tsconfigPath : string) : ParsedCommandLine :=
  parseJsonConfigFileContent
    (withDefaultExclude (loadConfigJson tsconfigPath))
    (workspacePathOf tsconfigPath) forcedCompilerOptions tsconfigPath
    [ {| extension := "svelte"; isMixedContent := true;
         extScriptKind := default TSX ScriptKind_Deferred |} ].

(** The two ways [detectJsxFactory] can return: the options as they are,
    their [jsxFactory] being a string that starts with [svelte], or the
    options with one of the two default factories. *)
Lemma detectJsxFactory_cases
    (workspacePath : string) (compilerOptions result : JsObject) :
  detectJsxFactory workspacePath compilerOptions = Some result →
  (result = compilerOptions
   ∧ ∃ factory, compilerOptions !! "jsxFactory" = Some (JStr factory)
                ∧ startsWith factory "svelte" = true)
  ∨ (result = <["jsxFactory" := JStr "svelte.createElement"]> compilerOptions
     ∧ (∀ factory, compilerOptions !! "jsxFactory" = Some (JStr factory) →
                   startsWith factory "svelte" = false))
  ∨ (result = <["jsxFactory" := JStr "svelteNative.createElement"]> compilerOptions
     ∧ (∀ factory, compilerOptions !! "jsxFactory" = Some (JStr factory) →
                   startsWith factory "svelte" = false)
     ∧ workspacePath ≠ ""
     ∧ ∃ info, getPackageInfo "svelte-native" workspacePath = Some info
               ∧ pkgPath info ≠ "").
Proof.
  unfold detectJsxFactory. intros Hdetect.
  set (fallback := <["jsxFactory" := _]> compilerOptions) in Hdetect.
  assert (Hfallback :
      fallback = <["jsxFactory" := JStr "svelte.createElement"]> compilerOptions
      ∨ (fallback = <["jsxFactory" := JStr "svelteNative.createElement"]> compilerOptions
         ∧ workspacePath ≠ ""
         ∧ ∃ info, getPackageInfo "svelte-native" workspacePath = Some info
                   ∧ pkgPath info ≠ "")).
  { subst fallback.
    destruct (String.eqb_spec workspacePath "") as [Hw|Hw]; [by left|].
    destruct (getPackageInfo "svelte-native" workspacePath) as [info|] eqn:Hinfo;
      [|by left].
    destruct (String.eqb_spec (pkgPath info) "") as [Hp|Hp]; [by left|].
    right. split; [done|]. split; [done|]. by exists info. }
  clearbody fallback.
  assert (Hdefault :
    (∀ factory, compilerOptions !! "jsxFactory" = Some (JStr factory) →
                startsWith factory "svelte" = false) →
    result = fallback →
    (result = compilerOptions
     ∧ ∃ factory, compilerOptions !! "jsxFactory" = Some (JStr factory)
                  ∧ startsWith factory "svelte" = true)
    ∨ (result = <["jsxFactory" := JStr "svelte.createElement"]> compilerOptions
       ∧ (∀ factory, compilerOptions !! "jsxFactory" = Some (JStr factory) →
                     startsWith factory "svelte" = false))
    ∨ (result = <["jsxFactory" := JStr "svelteNative.createElement"]> compilerOptions
       ∧ (∀ factory, compilerOptions !! "jsxFactory" = Some (JStr factory) →
                     startsWith factory "svelte" = false)
       ∧ workspacePath ≠ ""
       ∧ ∃ info, getPackageInfo "svelte-native" workspacePath = Some info
                 ∧ pkgPath info ≠ "")).
  { intros Hnot ->. destruct Hfallback as [-> | (-> & Hw & Hinfo)].
    - right; left. by split.
    - right; right. by split. }
  destruct (compilerOptions !! "jsxFactory") as [[|b|n|factory| |]|] eqn:Hown;
    simpl in Hdetect.
  - apply Hdefault; [intros ? [=] | congruence].
  - destruct b; simpl in Hdetect; [done|].
    apply Hdefault; [intros ? [=] | congruence].
  - destruct (n =? 0)%Z; simpl in Hdetect; [|done].
    apply Hdefault; [intros ? [=] | congruence].
  - destruct (String.eqb_spec factory "") as [->|Hne]; simpl in Hdetect.
    + apply Hdefault; [by intros ? [= <-] | congruence].
    + destruct (startsWith factory "svelte") eqn:Hstarts; simpl in Hdetect.
      * injection Hdetect as <-. left. split; [done|]. by exists factory.
      * apply Hdefault; [by intros ? [= <-] | congruence].
  - done.
  - done.
  - apply Hdefault; [intros ? [=] | congruence].
Qed.

(** X7. Whenever [getParsedConfig] returns, the compiler options have a
    [jsxFactory], it is a string, and it starts with [svelte]. *)
Theorem getParsedConfig_jsxFactory_svelte
    (tsconfigPath : string) (result : ParsedCommandLine) :
  getParsedConfig tsconfigPath = Some result →
  ∃ factory, options result !! "jsxFactory" = Some (JStr factory)
             ∧ startsWith factory "svelte" = true.
Proof.
  unfold getParsedConfig. fold (parsedConfigOf tsconfigPath).
  destruct (detectJsxFactory _ _) as [compilerOptions|] eqn:Hdetect;
    simpl; [|done].
  intros [= <-]. simpl.
  apply detectJsxFactory_cases in Hdetect
    as [(-> & factory & Hown & Hstarts) | [(-> & _) | (-> & _)]].
  - by exists factory.
  - eexists. by rewrite lookup_insert_eq.
  - eexists. by rewrite lookup_insert_eq.
Qed.

(** X8. A [jsxFactory] of the project that starts with [svelte] is kept as
    it is: the options returned are exactly the parser's options under the
    forced ones, and [getPackageInfo] plays no part. *)
Theorem getParsedConfig_keeps_svelte_jsxFactory
    (tsconfigPath : string) (factory : string) :
  options (parsedConfigOf tsconfigPath) !! "jsxFactory" = Some (JStr factory) →
  startsWith factory "svelte" = true →
  getParsedConfig tsconfigPath =
    Some {| options := forcedCompilerOptions ∪ options (parsedConfigOf tsconfigPath);
            fileNames := fileNames (parsedConfigOf tsconfigPath);
            raw := raw (parsedConfigOf tsconfigPath) |}
  ∧ (forcedCompilerOptions ∪ options (parsedConfigOf tsconfigPath)) !! "jsxFactory"
    = Some (JStr factory).
Proof.
  intros Hown Hstarts.
  assert ((forcedCompilerOptions ∪ options (parsedConfigOf tsconfigPath))
            !! "jsxFactory" = Some (JStr factory)) as Hmerged.
  { by rewrite lookup_union_r by apply forced_no_jsxFactory. }
  split; [|done].
  unfold getParsedConfig. fold (parsedConfigOf tsconfigPath).
  unfold detectJsxFactory. rewrite Hmerged. simpl. rewrite Hstarts. simpl.
  destruct (String.eqb_spec factory "") as [->|_]; [discriminate Hstarts|done].
Qed.

(** X9. [getParsedConfig] chooses [svelteNative.createElement] only if the
    project itself asked for it, or if there is a configuration path and
    [getPackageInfo] found the package [svelte-native] from its directory
    with a non-empty path.  Without a configuration path, or when the lookup
    of the package throws, the choice is never [svelteNative.createElement]. *)
Theorem getParsedConfig_svelteNative_only_if_found
    (tsconfigPath : string) (result : ParsedCommandLine) :
  getParsedConfig tsconfigPath = Some result →
  options result !! "jsxFactory" = Some (JStr "svelteNative.createElement") →
  options (parsedConfigOf tsconfigPath) !! "jsxFactory"
    = Some (JStr "svelteNative.createElement")
  ∨ (tsconfigPath ≠ ""
     ∧ ∃ info, getPackageInfo "svelte-native" (dirname tsconfigPath) = Some info
               ∧ pkgPath info ≠ "").
Proof.
  unfold getParsedConfig. fold (parsedConfigOf tsconfigPath).
  destruct (detectJsxFactory _ _) as [compilerOptions|] eqn:Hdetect;
    simpl; [|done].
  intros [= <-]. simpl. intros Hnative.
  apply detectJsxFactory_cases in Hdetect
    as [(-> & _) | [(-> & _) | (-> & _ & Hw & info & Hinfo & Hpath)]].
  - left. by rewrite lookup_union_r in Hnative by apply forced_no_jsxFactory.
  - by rewrite lookup_insert_eq in Hnative.
  - right. unfold workspacePathOf in Hw, Hinfo. revert Hw Hinfo.
    destruct (String.eqb_spec tsconfigPath "") as [Heq|Hne]; [done|].
    intros _ Hinfo. split; [done|]. by exists info.
Qed.

(** X10. [getParsedConfig] hands on what the parser found: the file names
    and the raw configuration are the parser's, and so is every option that
    is neither forced nor [jsxFactory]. *)
Theorem getParsedConfig_passes_parser_result
    (tsconfigPath : string) (result : ParsedCommandLine) :
  getParsedConfig tsconfigPath = Some result →
  fileNames result = fileNames (parsedConfigOf tsconfigPath)
  ∧ raw result = raw (parsedConfigOf tsconfigPath)
  ∧ ∀ k, forcedCompilerOptions !! k = None → k ≠ "jsxFactory" →
         options result !! k = options (parsedConfigOf tsconfigPath) !! k.
Proof.
  unfold getParsedConfig. fold (parsedConfigOf tsconfigPath).
  destruct (detectJsxFactory _ _) as [compilerOptions|] eqn:Hdetect;
    simpl; [|done].
  intros [= <-]. simpl. split; [done|]. split; [done|].
  intros k Hforced Hk.
  rewrite (detectJsxFactory_other _ _ _ k Hdetect Hk).
  by rewrite lookup_union_r.
Qed.

(** X11. Adding the default exclude list is done once and for all: the
    configuration it gives has a truthy [extends] or an [exclude] property,
    adding the default again changes nothing, and no property other than
    [exclude] is touched. *)
Theorem withDefaultExclude_idempotent (configJson : JsObject) :
  let result := withDefaultExclude configJson in
  (truthy (result !! "extends") = true ∨ is_Some (result !! "exclude"))
  ∧ withDefaultExclude result = result
  ∧ ∀ k, k ≠ "exclude" → result !! k = configJson !! k.
Proof.
  simpl.
  assert (Hother : ∀ k, k ≠ "exclude" →
                        withDefaultExclude configJson !! k = configJson !! k).
  { intros k Hk. unfold withDefaultExclude.
    destruct (negb (truthy (configJson !! "extends"))); [|done].
    rewrite lookup_union, lookup_singleton_ne by done.
    by destruct (configJson !! k). }
  assert (Hhas : truthy (withDefaultExclude configJson !! "extends") = true
                 ∨ is_Some (withDefaultExclude configJson !! "exclude")).
  { unfold withDefaultExclude.
    destruct (truthy (configJson !! "extends")) eqn:Hext; simpl; [by left|].
    right. rewrite lookup_union, lookup_singleton_eq.
    destruct (configJson !! "exclude"); by eexists. }
  split; [exact Hhas|]. split; [|exact Hother].
  unfold withDefaultExclude at 1.
  destruct (truthy (withDefaultExclude configJson !! "extends")) eqn:Hext;
    simpl; [done|].
  destruct Hhas as [Hhas | [own Hown]]; [congruence|].
  rewrite assign_over_default. by rewrite Hown.
Qed.

End GetParsedConfig.

(** *** A project to run the configuration on *)

(** A parser that lets the [compilerOptions] of the configuration override
    the options it is given, as the TypeScript parser does. *)
Definition exampleParse
    (json : JsObject) (basePath : string) (existingOptions : JsObject)
    (configFileName : string) (extra : list FileExtensionInfo)
  : ParsedCommandLine :=
  {| options :=
       match json !! "compilerOptions" with
       | Some (JObj fields) => list_to_map fields ∪ existingOptions
       | _ => existingOptions
       end;
     fileNames := [];
     raw := json |}.

(** A project whose configuration asks for emission and an old target. *)
Definition exampleReadConfigFile (path : string) : option JsObject :=
  if String.eqb path "/w/tsconfig.json"
  then Some {[ "compilerOptions" :=
                 JObj [ ("noEmit", JBool false);
                        ("target", JNum 1);
                        ("strict", JBool true) ] ]}
  else None.

Definition exampleGetParsedConfig : string → option ParsedCommandLine :=
  getParsedConfig 99 99 2 1 (Some Deferred) ["__sapper__"; ".svelte-kit"]
    exampleReadConfigFile exampleParse (λ _ _, None) (λ _, "/w").

Example getParsedConfig_overrides_user_options :
  (λ o, (o !! "noEmit", o !! "target", o !! "strict", o !! "jsxFactory"))
    <$> (options <$> exampleGetParsedConfig "/w/tsconfig.json")
  = Some (Some (JBool true), Some (JNum 99), Some (JBool true),
          Some (JStr "svelte.createElement")).
Proof. reflexivity. Qed.

Example getParsedConfig_without_config :
  raw <$> exampleGetParsedConfig ""
  = Some (list_to_map
            [ ("compilerOptions",
               JObj [ ("maxNodeModuleJsDepth", JNum 2);
                      ("allowSyntheticDefaultImports", JBool true) ]);
              ("include", JArr []);
              ("exclude",
               JArr [JStr "node_modules"; JStr "__sapper__"; JStr ".svelte-kit"]) ]).
Proof. reflexivity. Qed.

(** A NativeScript project: the package [svelte-native] is installed, and
    the configuration of [/n] names the factory itself. *)
Definition nativeReadConfigFile (path : string) : option JsObject :=
  if String.eqb path "/n/tsconfig.json"
  then Some {[ "compilerOptions" :=
                 JObj [ ("jsxFactory", JStr "svelteNative.createElement") ] ]}
  else exampleReadConfigFile path.

Definition nativeGetPackageInfo (name fromPath : string) : option PackageInfo :=
  if String.eqb name "svelte-native"
  then Some {| pkgPath := "/w/node_modules/svelte-native" |}
  else None.

Definition nativeGetParsedConfig : string → option ParsedCommandLine :=
  getParsedConfig 99 99 2 1 (Some Deferred) ["__sapper__"; ".svelte-kit"]
    nativeReadConfigFile exampleParse nativeGetPackageInfo (λ _, "/w").

(** Witness of X7: the project [/w]. *)
Lemma getParsedConfig_jsxFactory_svelte_witness :
  match exampleGetParsedConfig "/w/tsconfig.json" with
  | Some result =>
      ∃ factory, options result !! "jsxFactory" = Some (JStr factory)
                 ∧ startsWith factory "svelte" = true
  | None => False
  end.
Proof.
  destruct (exampleGetParsedConfig "/w/tsconfig.json") as [result|] eqn:Hresult.
  - exact (getParsedConfig_jsxFactory_svelte 99 99 2 1 (Some Deferred)
             ["__sapper__"; ".svelte-kit"] exampleReadConfigFile exampleParse
             (λ _ _, None) (λ _, "/w") "/w/tsconfig.json" result Hresult).
  - vm_compute in Hresult. discriminate Hresult.
Defined.

(** Witness of X8: the project [/n] names its factory. *)
Lemma getParsedConfig_keeps_svelte_jsxFactory_witness :
  (λ o, o !! "jsxFactory") <$> (options <$> nativeGetParsedConfig "/n/tsconfig.json")
  = Some (Some (JStr "svelteNative.createElement")).
Proof.
  destruct (getParsedConfig_keeps_svelte_jsxFactory 99 99 2 1 (Some Deferred)
              ["__sapper__"; ".svelte-kit"] nativeReadConfigFile exampleParse
              nativeGetPackageInfo (λ _, "/w") "/n/tsconfig.json"
              "svelteNative.createElement" eq_refl eq_refl) as [Hresult Hfactory].
  unfold nativeGetParsedConfig. rewrite Hresult. exact (f_equal Some Hfactory).
Defined.

(** Witness of X9: the project [/w] with [svelte-native] installed. *)
Lemma getParsedConfig_svelteNative_only_if_found_witness :
  match nativeGetParsedConfig "/w/tsconfig.json" with
  | Some result =>
      options (parsedConfigOf 99 99 2 1 (Some Deferred) ["__sapper__"; ".svelte-kit"]
                 nativeReadConfigFile exampleParse (λ _, "/w") "/w/tsconfig.json")
        !! "jsxFactory" = Some (JStr "svelteNative.createElement")
      ∨ ("/w/tsconfig.json" ≠ ""
         ∧ ∃ info, nativeGetPackageInfo "svelte-native" "/w" = Some info
                   ∧ pkgPath info ≠ "")
  | None => False
  end.
Proof.
  destruct (nativeGetParsedConfig "/w/tsconfig.json") as [result|] eqn:Hresult.
  - apply (getParsedConfig_svelteNative_only_if_found 99 99 2 1 (Some Deferred)
             ["__sapper__"; ".svelte-kit"] nativeReadConfigFile exampleParse
             nativeGetPackageInfo (λ _, "/w") "/w/tsconfig.json" result Hresult).
    vm_compute in Hresult. injection Hresult as <-. reflexivity.
  - vm_compute in Hresult. discriminate Hresult.
Defined.

(** Witness of X10: the [strict] option of the project [/w]. *)
Lemma getParsedConfig_passes_parser_result_witness :
  match exampleGetParsedConfig "/w/tsconfig.json" with
  | Some result => options result !! "strict" = Some (JBool true)
  | None => False
  end.
Proof.
  destruct (exampleGetParsedConfig "/w/tsconfig.json") as [result|] eqn:Hresult.
  - rewrite (proj2 (proj2
      (getParsedConfig_passes_parser_result 99 99 2 1 (Some Deferred)
         ["__sapper__"; ".svelte-kit"] exampleReadConfigFile exampleParse
         (λ _ _, None) (λ _, "/w") "/w/tsconfig.json" result Hresult))
      "strict" eq_refl) by discriminate.
    reflexivity.
  - vm_compute in Hresult. discriminate Hresult.
Defined.

(** Counterexample to C7 as stated: the configuration [{ extends: '' }] has
    an [extends] clause and no [exclude]; the default exclude list is added
    to it all the same. *)
Lemma default_exclude_added_despite_extends :
  let configJson : JsObject := {[ "extends" := JStr "" ]} in
  configJson !! "extends" = Some (JStr "")
  ∧ configJson !! "exclude" = None
  ∧ withDefaultExclude ["__sapper__"; ".svelte-kit"] configJson !! "exclude"
      = Some (JArr [JStr "node_modules"; JStr "__sapper__"; JStr ".svelte-kit"])
  ∧ withDefaultExclude ["__sapper__"; ".svelte-kit"] configJson ≠ configJson.
Proof.
  split; [reflexivity|]. split; [reflexivity|]. split; [reflexivity|].
  intros Heq.
  assert (Hex : withDefaultExclude ["__sapper__"; ".svelte-kit"]
                  ({[ "extends" := JStr "" ]} : JsObject) !! "exclude"
                = ({[ "extends" := JStr "" ]} : JsObject) !! "exclude")
    by (by rewrite Heq).
  discriminate Hex.
Qed.

End Config.

(* ===================================================================== *)
(** ** The registry: the module-level [services] map *)
(* ===================================================================== *)

Module Registry.

(** How a promise of a container was settled.  A container is an object
    built by one call of [createLanguageService]; it is identified by the
    index of that call. *)
Inductive Settlement :=
  | Fulfilled (container : nat)
  | Rejected.

#[global] Instance Settlement_eq_dec : EqDecision Settlement.
Proof. solve_decision. Defined.

(** The state of the module and of the event loop around it.
    - [services]: [const services = new Map<string, Promise<...>>()]; a
      promise is identified by the index of the [createLanguageService] call
      that returned it;
    - [promisesCreated]: the number of [createLanguageService] calls so far;
    - [initialised]: the paths logged by ['Initialize new ts service at'],
      one per [createLanguageService] call, oldest first;
    - [settled]: the promises that are no longer pending;
    - [awaiting]: the callers suspended at the [await] of
      [getServiceForTsconfig], with the key they asked for and the promise
      they wait on;
    - [received]: what each resumed caller got out of its [await]. *)
Record World := {
  services : gmap string nat;
  promisesCreated : nat;
  initialised : list string;
  settled : gmap nat Settlement;
  awaiting : list (nat * string * nat);
  received : list (nat * string * Settlement)
}.

Definition emptyWorld : World :=
  {| services := ∅; promisesCreated := 0; initialised := [];
     settled := ∅; awaiting := []; received := [] |}.

(** [getServiceForTsconfig] up to its [await]: this part runs without
    interruption, as JavaScript runs the body of an [async] function
    synchronously until the first [await]. *)
Definition getServiceForTsconfig (caller : nat) (tsconfigPath : string) (w : World)
  : World :=
  match services w !! tsconfigPath with
  | Some promise =>
      (* service = await services.get(tsconfigPath)! *)
      {| services := services w;
         promisesCreated := promisesCreated w;
         initialised := initialised w;
         settled := settled w;
         awaiting := awaiting w ++ [(caller, tsconfigPath, promise)];
         received := received w |}
  | None =>
      (* const newService = createLanguageService(tsconfigPath, docContext);
         services.set(tsconfigPath, newService);
         service = await newService *)
      let newService := promisesCreated w in
      {| services := <[tsconfigPath := newService]> (services w);
         promisesCreated := S (promisesCreated w);
         initialised := initialised w ++ [tsconfigPath];
         settled := settled w;
         awaiting := awaiting w ++ [(caller, tsconfigPath, newService)];
         received := received w |}
  end.

(** The promise of a [createLanguageService] call settles: it is fulfilled
    with the container that call built, or rejected.  A promise settles
    once. *)
Definition settle (promise : nat) (ok : bool) (w : World) : World :=
  if bool_decide (promise < promisesCreated w ∧ settled w !! promise = None)
  then
    {| services := services w;
       promisesCreated := promisesCreated w;
       initialised := initialised w;
       settled := <[promise := if ok then Fulfilled promise else Rejected]> (settled w);
       awaiting := awaiting w;
       received := received w |}
  else w.

(** What a suspended call of [caller] gets if its promise is settled. *)
Definition outcome (w : World) (caller : nat) (entry : nat * string * nat)
  : option (nat * string * Settlement) :=
  if bool_decide (entry.1.1 = caller)
  then s ← settled w !! entry.2; Some (entry.1.1, entry.1.2, s)
  else None.

(** The event loop resumes the calls of [caller] whose promise is settled. *)
Definition resume (caller : nat) (w : World) : World :=
  {| services := services w;
     promisesCreated := promisesCreated w;
     initialised := initialised w;
     settled := settled w;
     awaiting := filter (λ entry, outcome w caller entry = None) (awaiting w);
     received := received w ++ omap (outcome w caller) (awaiting w) |}.

Section FindTsConfigPath.

(** [ts.sys.fileExists]. *)
Variable fileExists : string → bool.

(** The configuration files that can own a file, nearest first, given the
    workspace folders. *)
Variable configCandidates : string → list string → list string.

(** Modelled from the spec: [findTsConfigPath] of ./utils, which is defined
    outside service.ts.  Section 3 of the specification: the key of a project
    is the absolute path of its configuration file, or the empty key when no
    configuration exists; section 6: the workspace roots are used for config
    discovery.  The source agrees: the path found is read with
    [ts.readConfigFile], and the empty path stands for "no jsconfig/tsconfig
    at all" (comment of [getDefaultJsConfig]). *)
Definition findTsConfigPath (path : string) (workspaceUris : list string) : string :=
  default "" (List.find fileExists (configCandidates path workspaceUris)).

(** [export async function getService(path, workspaceUris, docContext)]. *)
Definition getService (caller : nat) (path : string) (workspaceUris : list string)
  : World → World :=
  getServiceForTsconfig caller (findTsConfigPath path workspaceUris).

(** [export function hasServiceForFile(path, workspaceUris)]. *)
Definition hasServiceForFile (path : string) (workspaceUris : list string) (w : World)
  : bool :=
  let tsconfigPath := findTsConfigPath path workspaceUris in
  bool_decide (is_Some (services w !! tsconfigPath)).

(** What can happen, one event at a time: a call of one of the two exported
    functions, the settlement of a promise, the resumption of a caller. *)
Inductive Event :=
  | CallGetServiceForTsconfig (caller : nat) (tsconfigPath : string)
  | CallGetService (caller : nat) (path : string) (workspaceUris : list string)
  | Settle (promise : nat) (ok : bool)
  | Resume (caller : nat).

Definition step (w : World) (e : Event) : World :=
  match e with
  | CallGetServiceForTsconfig caller tsconfigPath =>
      getServiceForTsconfig caller tsconfigPath w
  | CallGetService caller path workspaceUris =>
      getService caller path workspaceUris w
  | Settle promise ok => settle promise ok w
  | Resume caller => resume caller w
  end.

Definition run (events : list Event) : World := foldl step emptyWorld events.

(** What holds of the registry at every moment. *)
Record consistent (w : World) : Prop := {
  initialised_NoDup : NoDup (initialised w);
  initialised_count : length (initialised w) = promisesCreated w;
  initialised_services : ∀ key, key ∈ initialised w ↔ is_Some (services w !! key);
  awaiting_services :
    ∀ caller key promise,
      (caller, key, promise) ∈ awaiting w → services w !! key = Some promise;
  received_services :
    ∀ caller key result,
      (caller, key, result) ∈ received w →
      ∃ promise, services w !! key = Some promise
                 ∧ settled w !! promise = Some result;
  services_bound :
    ∀ key promise, services w !! key = Some promise → promise < promisesCreated w;
  services_inj :
    ∀ key1 key2 promise,
      services w !! key1 = Some promise → services w !! key2 = Some promise →
      key1 = key2;
  settled_container :
    ∀ promise container,
      settled w !! promise = Some (Fulfilled container) → container = promise
}.

(** *** Proofs about the registry *)

Lemma emptyWorld_consistent : consistent emptyWorld.
Proof.
  split; simpl.
  - constructor.
  - done.
  - intros key. split.
    + intros Hin. by apply elem_of_nil in Hin.
    + rewrite lookup_empty. by intros [? ?].
  - intros ??? Hin. by apply elem_of_nil in Hin.
  - intros ??? Hin. by apply elem_of_nil in Hin.
  - intros ?? Hkey. by rewrite lookup_empty in Hkey.
  - intros ??? Hkey. by rewrite lookup_empty in Hkey.
  - intros ?? Hp. by rewrite lookup_empty in Hp.
Qed.

Lemma getServiceForTsconfig_consistent caller tsconfigPath w :
  consistent w → consistent (getServiceForTsconfig caller tsconfigPath w).
Proof.
  intros [Hnodup Hcount Hinit Hawait Hrecv Hbound Hinj Hcont].
  unfold getServiceForTsconfig.
  destruct (services w !! tsconfigPath) as [promise|] eqn:Hkey.
  - split; simpl; try done.
    intros c key p Hin. apply elem_of_app in Hin as [Hin | Hin]; [by eauto|].
    apply list_elem_of_singleton in Hin. by simplify_eq.
  - assert (Hfresh : tsconfigPath ∉ initialised w).
    { intros Hin. apply Hinit in Hin. rewrite Hkey in Hin. by destruct Hin. }
    split; simpl.
    + apply NoDup_app. split; [done|]. split; [|apply NoDup_singleton].
      intros key Hin Hin'. apply list_elem_of_singleton in Hin'. by subst.
    + rewrite length_app. simpl. lia.
    + intros key. rewrite elem_of_app, list_elem_of_singleton, Hinit.
      destruct (decide (tsconfigPath = key)) as [->|Hne].
      * rewrite lookup_insert_eq. split; [by eauto | by right].
      * rewrite lookup_insert_ne by done. split; [|by left].
        intros [?|?]; [done | by subst].
    + intros c key p Hin. apply elem_of_app in Hin as [Hin | Hin].
      * pose proof (Hawait _ _ _ Hin) as Hp.
        rewrite lookup_insert_ne; [done|]. intros ->. congruence.
      * apply list_elem_of_singleton in Hin. simplify_eq.
        apply lookup_insert_eq.
    + intros c key r Hin. destruct (Hrecv _ _ _ Hin) as (p & Hp & Hs).
      exists p. split; [|done].
      rewrite lookup_insert_ne; [done|]. intros ->. congruence.
    + intros key p Hp. destruct (decide (tsconfigPath = key)) as [->|Hne].
      * rewrite lookup_insert_eq in Hp. simplify_eq. lia.
      * rewrite lookup_insert_ne in Hp by done. apply Hbound in Hp. lia.
    + intros key1 key2 p Hp1 Hp2.
      destruct (decide (tsconfigPath = key1)) as [<-|Hne1],
               (decide (tsconfigPath = key2)) as [<-|Hne2]; [done| | |].
      * rewrite lookup_insert_eq in Hp1. rewrite lookup_insert_ne in Hp2 by done.
        simplify_eq. apply Hbound in Hp2. lia.
      * rewrite lookup_insert_eq in Hp2. rewrite lookup_insert_ne in Hp1 by done.
        simplify_eq. apply Hbound in Hp1. lia.
      * rewrite lookup_insert_ne in Hp1, Hp2 by done. by eapply Hinj.
    + done.
Qed.

Lemma settle_consistent promise ok w :
  consistent w → consistent (settle promise ok w).
Proof.
  intros Hw. unfold settle. case_bool_decide as Hpending; [|done].
  destruct Hw as [Hnodup Hcount Hinit Hawait Hrecv Hbound Hinj Hcont],
           Hpending as [_ Hpending].
  split; simpl; try done.
  - intros c key r Hin. destruct (Hrecv _ _ _ Hin) as (p & Hp & Hs).
    exists p. split; [done|].
    rewrite lookup_insert_ne; [done|]. intros ->. congruence.
  - intros p c Hp. destruct (decide (promise = p)) as [->|Hne].
    + rewrite lookup_insert_eq in Hp. destruct ok; by simplify_eq.
    + rewrite lookup_insert_ne in Hp by done. by apply Hcont.
Qed.

Lemma resume_consistent caller w : consistent w → consistent (resume caller w).
Proof.
  intros [Hnodup Hcount Hinit Hawait Hrecv Hbound Hinj Hcont].
  split; simpl; try done.
  - intros c key p Hin. apply list_elem_of_filter in Hin as [_ Hin]. by eauto.
  - intros c key r Hin. apply elem_of_app in Hin as [Hin | Hin]; [by eauto|].
    apply list_elem_of_omap in Hin as ([[c' key'] p] & Hin & Hout).
    unfold outcome in Hout. simpl in Hout.
    case_bool_decide; [|done].
    destruct (settled w !! p) as [s|] eqn:Hs; simpl in Hout; [|done].
    simplify_eq. exists p. split; [by eauto | done].
Qed.

Lemma step_consistent w e : consistent w → consistent (step w e).
Proof.
  destruct e; simpl.
  - apply getServiceForTsconfig_consistent.
  - apply getServiceForTsconfig_consistent.
  - apply settle_consistent.
  - apply resume_consistent.
Qed.

Lemma run_consistent events : consistent (run events).
Proof.
  unfold run. generalize emptyWorld_consistent. generalize emptyWorld.
  induction events as [|e events IH]; intros w Hw; simpl; [done|].
  by apply IH, step_consistent.
Qed.


(** C9, as amended.  [hasServiceForFile] answers whether a container is
    registered under the configuration path that [findTsConfigPath] finds
    for the file, that is, whether [createLanguageService] was called for
    that path.  The path searched for is the first candidate configuration
    that exists on disk, or the empty key; once it is known the answer is a
    lookup in [services].  After [getService] for the same file and workspace
    folders the answer is true. *)
Theorem hasServiceForFile_registered
    (events : list Event) (path : string) (workspaceUris : list string) :
  let w := run events in
  let tsconfigPath :=
    default "" (List.find fileExists (configCandidates path workspaceUris)) in
  hasServiceForFile path workspaceUris w
    = bool_decide (is_Some (services w !! tsconfigPath))
  ∧ hasServiceForFile path workspaceUris w
    = bool_decide (tsconfigPath ∈ initialised w)
  ∧ ∀ caller,
      hasServiceForFile path workspaceUris (getService caller path workspaceUris w)
      = true.
Proof.
  intros w tsconfigPath.
  destruct (run_consistent events) as [_ _ Hinit _ _ _ _ _]. fold w in Hinit.
  split; [done|]. split.
  - unfold hasServiceForFile, findTsConfigPath. fold tsconfigPath.
    apply bool_decide_ext. by rewrite Hinit.
  - intros caller.
    unfold hasServiceForFile, getService, getServiceForTsconfig, findTsConfigPath.
    fold tsconfigPath.
    destruct (services w !! tsconfigPath) as [promise|] eqn:Hkey; simpl.
    + rewrite Hkey. by apply bool_decide_eq_true_2.
    + rewrite lookup_insert_eq. by apply bool_decide_eq_true_2.
Qed.

(** *** Further properties of the registry *)

Lemma step_services_mono (w : World) (e : Event) (key : string) (promise : nat) :
  services w !! key = Some promise → services (step w e) !! key = Some promise.
Proof.
  intros Hkey.
  assert (∀ caller k, services (getServiceForTsconfig caller k w) !! key
                      = Some promise) as Hcall.
  { intros caller k. unfold getServiceForTsconfig.
    destruct (services w !! k) eqn:Hk; simpl; [done|].
    rewrite lookup_insert_ne; [done|]. intros ->. congruence. }
  destruct e; simpl; [apply Hcall | apply Hcall | | done].
  unfold settle. by case_bool_decide.
Qed.

Lemma step_settled_mono (w : World) (e : Event) (promise : nat) (s : Settlement) :
  settled w !! promise = Some s → settled (step w e) !! promise = Some s.
Proof.
  intros Hs. destruct e; simpl.
  - unfold getServiceForTsconfig. by destruct (services w !! tsconfigPath).
  - unfold getService, getServiceForTsconfig.
    by destruct (services w !! findTsConfigPath path workspaceUris).
  - unfold settle. case_bool_decide as Hpending; [|done].
    simpl. rewrite lookup_insert_ne; [done|].
    intros ->. destruct Hpending as [_ Hpending]. congruence.
  - done.
Qed.

Lemma foldl_step_mono (events : list Event) (w : World) :
  (∀ key promise, services w !! key = Some promise →
                  services (foldl step w events) !! key = Some promise)
  ∧ (∀ promise s, settled w !! promise = Some s →
                  settled (foldl step w events) !! promise = Some s).
Proof.
  revert w. induction events as [|e events IH]; intros w; simpl; [done|].
  destruct (IH (step w e)) as [IHservices IHsettled]. split.
  - intros key promise Hkey. by apply IHservices, step_services_mono.
  - intros promise s Hs. by apply IHsettled, step_settled_mono.
Qed.

Lemma foldl_step_consistent (events : list Event) (w : World) :
  consistent w → consistent (foldl step w events).
Proof.
  revert w. induction events as [|e events IH]; intros w Hw; simpl; [done|].
  by apply IH, step_consistent.
Qed.

(** X12. The registry never evicts and never retries.  Once a promise is
    registered under a key it stays registered under that key whatever
    happens next, a later call for the key does not call
    [createLanguageService] again, and if that promise was rejected every
    caller that asks for the key afterwards and is resumed gets the
    rejection. *)
Theorem registry_never_evicts
    (events more : list Event) (key : string) (promise : nat) :
  services (run events) !! key = Some promise →
  let later := run (events ++ more) in
  services later !! key = Some promise
  ∧ (∀ caller, promisesCreated (getServiceForTsconfig caller key later)
               = promisesCreated later)
  ∧ (settled (run events) !! promise = Some Rejected →
     ∀ caller result, (caller, key, result) ∈ received later → result = Rejected).
Proof.
  intros Hkey later.
  assert (later = foldl step (run events) more) as Hlater
    by (unfold later, run; by rewrite foldl_app).
  destruct (foldl_step_mono more (run events)) as [Hservices Hsettled].
  rewrite <- Hlater in Hservices, Hsettled.
  pose proof (Hservices _ _ Hkey) as Hkey'.
  split; [done|]. split.
  - intros caller. unfold getServiceForTsconfig. by rewrite Hkey'.
  - intros Hrejected caller result Hin.
    destruct (received_services _ (run_consistent (events ++ more)) _ _ _ Hin)
      as (p & Hp & Hs).
    fold later in Hp, Hs. apply Hsettled in Hrejected. congruence.
Qed.

(** X13. Once [hasServiceForFile] answers true for a file it keeps doing so
    as calls go on, as long as the same configuration is found for the
    file. *)
Theorem hasServiceForFile_stays_true
    (events more : list Event) (path : string) (workspaceUris : list string) :
  hasServiceForFile path workspaceUris (run events) = true →
  hasServiceForFile path workspaceUris (run (events ++ more)) = true.
Proof.
  unfold hasServiceForFile. intros Hhas.
  apply bool_decide_eq_true_1 in Hhas as [promise Hkey].
  apply bool_decide_eq_true_2. exists promise.
  unfold run. rewrite foldl_app.
  by apply (foldl_step_mono more (run events)).
Qed.

(** The key a call asks for. *)
Definition requestedKey (e : Event) : option string :=
  match e with
  | CallGetServiceForTsconfig _ tsconfigPath => Some tsconfigPath
  | CallGetService _ path workspaceUris => Some (findTsConfigPath path workspaceUris)
  | Settle _ _ => None
  | Resume _ => None
  end.

(** The keys of a list in the order of their first occurrence. *)
Definition addNew (seen : list string) (key : string) : list string :=
  if decide (key ∈ seen) then seen else seen ++ [key].

Definition firstOccurrences (keys : list string) : list string :=
  foldl addNew [] keys.

(** Promises are numbered in the order of [initialised]. *)
Definition numbered (w : World) : Prop :=
  ∀ key promise,
    services w !! key = Some promise ↔ initialised w !! promise = Some key.

Lemma getServiceForTsconfig_numbered caller tsconfigPath w :
  consistent w → numbered w →
  numbered (getServiceForTsconfig caller tsconfigPath w).
Proof.
  intros Hw Hnum key promise. unfold getServiceForTsconfig.
  destruct (services w !! tsconfigPath) as [p|] eqn:Hkey; simpl; [apply Hnum|].
  pose proof (initialised_count _ Hw) as Hcount.
  destruct (decide (tsconfigPath = key)) as [<-|Hne].
  - rewrite lookup_insert_eq. split.
    + intros [= <-]. rewrite <- Hcount. by apply list_lookup_middle.
    + intros Hlook. f_equal.
      destruct (decide (promise < length (initialised w))) as [Hlt|Hge].
      * rewrite lookup_app_l in Hlook by done.
        apply Hnum in Hlook. congruence.
      * apply lookup_lt_Some in Hlook. rewrite length_app in Hlook.
        simpl in Hlook. lia.
  - rewrite lookup_insert_ne by done.
    pose proof (Hnum key promise) as Hkp. rewrite Hkp. split.
    + intros Hlook. by apply lookup_app_l_Some.
    + intros Hlook.
      destruct (decide (promise < length (initialised w))) as [Hlt|Hge].
      * by rewrite lookup_app_l in Hlook.
      * rewrite lookup_app_r in Hlook by lia.
        apply list_lookup_singleton_Some in Hlook as [_ ?]. done.
Qed.

Lemma foldl_step_initialised (events : list Event) (w : World) :
  consistent w → numbered w →
  initialised (foldl step w events)
    = foldl addNew (initialised w) (omap requestedKey events)
  ∧ numbered (foldl step w events).
Proof.
  revert w. induction events as [|e events IH]; intros w Hw Hnum; simpl; [done|].
  assert (∀ caller k,
            initialised (getServiceForTsconfig caller k w)
            = addNew (initialised w) k) as Hcall.
  { intros caller k. unfold getServiceForTsconfig, addNew.
    pose proof (initialised_services _ Hw k) as Hinit.
    destruct (services w !! k) eqn:Hk; simpl.
    - rewrite decide_True; [done|]. apply Hinit. by eexists.
    - rewrite decide_False; [done|]. intros Hin. apply Hinit in Hin.
      by destruct Hin. }
  destruct e as [caller k | caller path ws | promise ok | caller]; simpl.
  - rewrite <- (Hcall caller k).
    apply (IH (getServiceForTsconfig caller k w)).
    + by apply getServiceForTsconfig_consistent.
    + by apply getServiceForTsconfig_numbered.
  - unfold getService. rewrite <- (Hcall caller (findTsConfigPath path ws)).
    apply (IH (getServiceForTsconfig caller (findTsConfigPath path ws) w)).
    + by apply getServiceForTsconfig_consistent.
    + by apply getServiceForTsconfig_numbered.
  - assert (initialised (settle promise ok w) = initialised w) as <-
      by (unfold settle; by case_bool_decide).
    apply (IH (settle promise ok w)).
    + by apply settle_consistent.
    + unfold settle. by case_bool_decide.
  - apply (IH (resume caller w)).
    + by apply resume_consistent.
    + done.
Qed.

(** X14. [createLanguageService] is called for the keys that were asked for,
    once each, in the order in which they were first asked for; the promise
    registered under a key is the one of the call made for it. *)
Theorem initialised_first_requests (events : list Event) :
  initialised (run events) = firstOccurrences (omap requestedKey events)
  ∧ ∀ key promise,
      services (run events) !! key = Some promise
      ↔ firstOccurrences (omap requestedKey events) !! promise = Some key.
Proof.
  destruct (foldl_step_initialised events emptyWorld emptyWorld_consistent)
    as [Hinit Hnum].
  { intros key promise. simpl. by rewrite lookup_empty, lookup_nil. }
  fold (run events) in Hinit, Hnum. simpl in Hinit.
  split; [exact Hinit|]. intros key promise.
  unfold firstOccurrences. rewrite <- Hinit. apply Hnum.
Qed.

End FindTsConfigPath.

(** *** A workspace to run the registry on *)

(** The configuration that can own a file: [tsconfig.json] in a workspace
    folder. *)
Definition exampleCandidates (path : string) (workspaceUris : list string)
  : list string :=
  (λ root, root +:+ "/tsconfig.json") <$> workspaceUris.

Definition diskWithConfig (path : string) : bool :=
  bool_decide (path = "/w/tsconfig.json").

Definition emptyDisk (path : string) : bool := false.

(** Two files of the project [/w] are opened before its container is ready;
    the promise is then fulfilled and both callers resume. *)
Definition twoCallers : list Event :=
  [ CallGetService 1 "/w/a.svelte" ["/w"];
    CallGetService 2 "/w/b.svelte" ["/w"];
    Settle 0 true;
    Resume 1;
    Resume 2 ].

Example twoCallers_same_container :
  let w := run diskWithConfig exampleCandidates twoCallers in
  received w = [ (1, "/w/tsconfig.json", Fulfilled 0);
                 (2, "/w/tsconfig.json", Fulfilled 0) ]
  ∧ initialised w = ["/w/tsconfig.json"]
  ∧ awaiting w = [].
Proof. repeat split; reflexivity. Qed.

(** The construction of the container of [/w] fails; a second caller comes
    later. *)
Definition failedConstruction : list Event :=
  [ CallGetService 1 "/w/a.svelte" ["/w"]; Settle 0 false; Resume 1 ].

Definition secondCaller : list Event :=
  [ CallGetService 2 "/w/b.svelte" ["/w"]; Resume 2 ].

(** Witness of X12: the second caller gets the rejection of the first
    construction, and no second construction is started. *)
Lemma registry_never_evicts_witness :
  let later := run diskWithConfig exampleCandidates (failedConstruction ++ secondCaller) in
  services later !! "/w/tsconfig.json" = Some 0
  ∧ received later = [ (1, "/w/tsconfig.json", Rejected);
                       (2, "/w/tsconfig.json", Rejected) ]
  ∧ promisesCreated later = 1.
Proof.
  split; [|split; reflexivity].
  apply (registry_never_evicts diskWithConfig exampleCandidates
           failedConstruction secondCaller "/w/tsconfig.json" 0).
  reflexivity.
Defined.

(** Witness of X13: the project [/w] stays known. *)
Lemma hasServiceForFile_stays_true_witness :
  hasServiceForFile diskWithConfig exampleCandidates "/w/c.svelte" ["/w"]
    (run diskWithConfig exampleCandidates (failedConstruction ++ secondCaller))
  = true.
Proof.
  apply (hasServiceForFile_stays_true diskWithConfig exampleCandidates
           failedConstruction secondCaller "/w/c.svelte" ["/w"]).
  reflexivity.
Defined.

Example initialised_two_projects :
  initialised
    (run diskWithConfig exampleCandidates
       [ CallGetServiceForTsconfig 1 "/b/tsconfig.json";
         CallGetService 2 "/w/a.svelte" ["/w"];
         CallGetServiceForTsconfig 3 "/b/tsconfig.json";
         CallGetServiceForTsconfig 4 "" ])
  = ["/b/tsconfig.json"; "/w/tsconfig.json"; ""].
Proof. reflexivity. Qed.

(** Counterexample to C9 as stated: with the same registry, the same file
    and the same workspace folders, [hasServiceForFile] answers true on a
    disk where [/w/tsconfig.json] exists and false on a disk where it does
    not.  Its answer is therefore not a lookup in the map alone. *)
Lemma hasServiceForFile_depends_on_disk :
  let w := run diskWithConfig exampleCandidates twoCallers in
  hasServiceForFile diskWithConfig exampleCandidates "/w/a.svelte" ["/w"] w = true
  ∧ hasServiceForFile emptyDisk exampleCandidates "/w/a.svelte" ["/w"] w = false
  ∧ findTsConfigPath diskWithConfig exampleCandidates "/w/a.svelte" ["/w"]
      = "/w/tsconfig.json"
  ∧ findTsConfigPath emptyDisk exampleCandidates "/w/a.svelte" ["/w"] = "".
Proof. repeat split; reflexivity. Qed.

End Registry.

(* ===================================================================== *)
(** ** The container as [createLanguageService] assembles it *)
(* ===================================================================== *)

Module Service.
Import Ts Container Config.

(** [LanguageServiceDocumentContext], without [createDocument], which is
    part of the snapshot construction. *)
Record LanguageServiceDocumentContext := {
  ctxTransformOnTemplateError : bool
}.

(** What [createLanguageService] returns, with the state of its closure. *)
Record LanguageServiceContainer := {
  tsconfigPath : string;
  compilerOptions : JsObject;
  transformation : TransformationConfig;
  state : ContainerState
}.

(** [Array.from(new Set(items))]: the items without repetition, each at the
    place of its first occurrence. *)
Fixpoint uniqueFrom (seen items : list string) : list string :=
  match items with
  | [] => []
  | x :: items =>
      if decide (x ∈ seen) then uniqueFrom seen items
      else x :: uniqueFrom (x :: seen) items
  end.

Definition arrayFromSet (items : list string) : list string := uniqueFrom [] items.

Section CreateLanguageService.

(** The environment of [getParsedConfig], as in [Config]. *)
Variable ScriptTarget_Latest ModuleKind_ESNext : Z.
Variable ModuleResolutionKind_NodeJs JsxEmit_Preserve : Z.
Variable ScriptKind_Deferred : option ScriptKind.
Variable ignoredBuildDirectories : list string.
Variable readConfigFile : string → option JsObject.
Variable parseJsonConfigFileContent :
  JsObject → string → JsObject → string → list FileExtensionInfo → ParsedCommandLine.
Variable getPackageInfo : string → string → option PackageInfo.
Variable dirname : string → string.

(** [require.resolve(name)]; [None] when it throws. *)
Variable requireResolve : string → option string.
(** [__dirname] of the module. *)
Variable moduleDirname : string.
(** [resolve] of the [path] module and [ts.sys.resolvePath]. *)
Variable pathResolve : string → string → string.
Variable resolvePath : string → string.
(** Whether [configLoader.loadConfigs(workspacePath)] resolves. *)
Variable loadConfigs : string → bool.

(** [getParsedConfig()] of the closure for its [tsconfigPath]. *)
Definition closureParsedConfig (path : string) : option ParsedCommandLine :=
  getParsedConfig ScriptTarget_Latest ModuleKind_ESNext ModuleResolutionKind_NodeJs
    JsxEmit_Preserve ScriptKind_Deferred ignoredBuildDirectories readConfigFile
    parseJsonConfigFileContent getPackageInfo dirname path.

(** [svelteTsPath]: the directory of [svelte2tsx] when it can be resolved,
    the directory of the module otherwise. *)
Definition svelteTsPath : string :=
  match requireResolve "svelte2tsx" with
  | Some resolved => dirname resolved
  | None => moduleDirname
  end.

(** [const svelteTsxFiles = [...].map(f => ts.sys.resolvePath(resolve(svelteTsPath, f)))]. *)
Definition svelteTsxFiles : list string :=
  (λ f, resolvePath (pathResolve svelteTsPath f))
    <$> ["./svelte-shims.d.ts"; "./svelte-jsx.d.ts"; "./svelte-native-jsx.d.ts"].

(** Modelled from the spec: [SnapshotManager.getProjectFileNames] and
    [SnapshotManager.getFileNames], missing with their class; section 4.3:
    the declared project files and the cached file paths.  The paths of the
    cache are listed in the order of the map, not in the order of their
    insertion. *)
Definition SnapshotManager_getProjectFileNames (m : SnapshotManager) : list string :=
  projectFiles m.

Definition SnapshotManager_getFileNames (m : SnapshotManager) : list string :=
  (map_to_list (documents m)).*1.

(** [host.getScriptFileNames]. *)
Definition getScriptFileNames (st : ContainerState) : list string :=
  arrayFromSet
    (SnapshotManager_getProjectFileNames (snapshotManager st)
     ++ SnapshotManager_getFileNames (snapshotManager st)
     ++ svelteTsxFiles).

(** [function fileBelongsToProject(filePath)], in the closure for [path];
    [None] is the exception [getParsedConfig] can throw. *)
Definition fileBelongsToProject (path : string) (filePath : string)
  : Host (option bool) :=
  known ← hasFile filePath;
  if (known : bool) return Host (option bool) then mret (Some true)
  else
    mret (parsed ← closureParsedConfig path;
          Some (bool_decide (filePath ∈ fileNames parsed))).

(** [async function createLanguageService(tsconfigPath, docContext)]: the
    container it resolves to, or [None] when its promise is rejected
    ([getParsedConfig] throws, or the loading of the configurations fails). *)
Definition createLanguageService
    (path : string) (docContext : LanguageServiceDocumentContext)
  : option LanguageServiceContainer :=
  let workspacePath := if String.eqb path "" then "" else dirname path in
  parsed ← closureParsedConfig path;
  if loadConfigs workspacePath then
    Some {| tsconfigPath := path;
            compilerOptions := options parsed;
            transformation :=
              {| strictMode := truthy (options parsed !! "strict");
                 transformOnTemplateError := ctxTransformOnTemplateError docContext |};
            state := initialState (fileNames parsed) |}
  else None.

(** *** Proofs about the assembled container *)

Lemma elem_of_uniqueFrom (seen items : list string) (x : string) :
  x ∈ uniqueFrom seen items ↔ x ∈ items ∧ x ∉ seen.
Proof.
  revert seen. induction items as [|y items IH]; intros seen; simpl.
  - split; [intros Hin | intros [Hin _]]; by apply elem_of_nil in Hin.
  - destruct (decide (y ∈ seen)) as [Hseen | Hnew].
    + rewrite IH. split.
      * intros [Hin Hx]. split; [by right | done].
      * intros [Hin Hx]. split; [|done].
        by apply elem_of_cons in Hin as [-> | Hin].
    + split.
      * intros Hin. apply elem_of_cons in Hin as [-> | Hin].
        -- split; [by left | done].
        -- apply IH in Hin as [Hin Hx]. split; [by right|].
           intros Hs. apply Hx. by right.
      * intros [Hin Hx]. apply elem_of_cons in Hin as [-> | Hin]; [by left|].
        destruct (decide (x = y)) as [->|Hne]; [by left|].
        right. apply IH. split; [done|].
        intros Hs. by apply elem_of_cons in Hs as [? | Hs].
Qed.

Lemma NoDup_uniqueFrom (seen items : list string) : NoDup (uniqueFrom seen items).
Proof.
  revert seen. induction items as [|y items IH]; intros seen; simpl.
  - constructor.
  - destruct (decide (y ∈ seen)); [apply IH|].
    constructor; [|apply IH].
    intros Hin. apply elem_of_uniqueFrom in Hin as [_ Hx]. apply Hx. by left.
Qed.

Lemma elem_of_getFileNames (m : SnapshotManager) (p : string) :
  p ∈ SnapshotManager_getFileNames m ↔ is_Some (documents m !! p).
Proof.
  unfold SnapshotManager_getFileNames. rewrite list_elem_of_fmap. split.
  - intros ([q snap] & -> & Hin). apply elem_of_map_to_list in Hin. by eexists.
  - intros [snap Hsnap]. exists (p, snap). split; [done|].
    by apply elem_of_map_to_list.
Qed.

(** X15. The list of script files handed to the engine has no repetition,
    and a path is in it exactly when it is a declared project file, a path
    with a cached snapshot, or one of the three Svelte declaration files;
    in particular every path for which [hasFile] is true is listed. *)
Theorem getScriptFileNames_unique (st : ContainerState) :
  NoDup (getScriptFileNames st)
  ∧ (∀ p, p ∈ getScriptFileNames st ↔
            p ∈ projectFiles (snapshotManager st)
            ∨ is_Some (documents (snapshotManager st) !! p)
            ∨ p ∈ svelteTsxFiles)
  ∧ (∀ p, eval (hasFile p) st = true → p ∈ getScriptFileNames st)
  ∧ length svelteTsxFiles = 3.
Proof.
  assert (Hin : ∀ p, p ∈ getScriptFileNames st ↔
            p ∈ projectFiles (snapshotManager st)
            ∨ is_Some (documents (snapshotManager st) !! p)
            ∨ p ∈ svelteTsxFiles).
  { intros p. unfold getScriptFileNames, arrayFromSet.
    rewrite elem_of_uniqueFrom, !elem_of_app, elem_of_getFileNames.
    unfold SnapshotManager_getProjectFileNames. split; [by intros [? _]|].
    intros H. split; [done | apply not_elem_of_nil]. }
  split; [apply NoDup_uniqueFrom|]. split; [exact Hin|]. split; [|done].
  intros p Hhas. apply Hin. right; left.
  unfold eval, hasFile, SnapshotManager_has, gets in Hhas. simpl in Hhas.
  by apply bool_decide_eq_true_1 in Hhas.
Qed.

(** X16. A file that was just given to [updateSnapshot] belongs to the
    project whatever the configuration says, even when [getParsedConfig]
    would throw; right after [deleteSnapshot] a file belongs to the project
    exactly when the parsed configuration lists it. *)
Theorem fileBelongsToProject_open_or_declared
    (readFile : string → option string)
    (fromDocument : Document → TransformationConfig → DocumentSnapshot)
    (snapshotOfFile : string → option string → TransformationConfig → DocumentSnapshot)
    (mayDenote : string * string → string → bool)
    (transformationConfig : TransformationConfig)
    (path : string) (st : ContainerState) :
  (∀ d : Document + string,
     eval (fileBelongsToProject path (updateTarget d))
       (exec (updateSnapshot readFile fromDocument snapshotOfFile mayDenote
                transformationConfig d) st)
     = Some true)
  ∧ (∀ p,
       eval (fileBelongsToProject path p) (exec (deleteSnapshot p) st)
       = (λ parsed, bool_decide (p ∈ fileNames parsed)) <$> closureParsedConfig path).
Proof.
  split.
  - intros d.
    assert (is_Some (documents (snapshotManager
              (exec (updateSnapshot readFile fromDocument snapshotOfFile mayDenote
                       transformationConfig d) st)) !! updateTarget d)) as Hsome.
    { destruct d as [document | fp];
        unfold updateTarget, updateSnapshot, updateSnapshotFromDocument,
          updateSnapshotFromFilePath, restartLanguageService,
          deleteUnresolvedResolutionsFromCache, DocumentSnapshot_fromFilePath,
          DocumentSnapshot_fromDocument, SnapshotManager_get, SnapshotManager_set,
          setSnapshotManager, setModuleCache, emit, exec, gets, modify,
          mbind, Host_bind, mret, Host_ret; simpl.
      - destruct (documents (snapshotManager st) !! default "" (getFilePath document))
          as [prev|] eqn:Hprev; simpl.
        + repeat (case_bool_decide; simpl);
            rewrite ?Hprev, ?lookup_insert_eq; by eexists.
        + rewrite lookup_insert_eq. by eexists.
      - destruct (documents (snapshotManager st) !! fp) as [prev|] eqn:Hprev; simpl.
        + rewrite Hprev. by eexists.
        + rewrite lookup_insert_eq. by eexists. }
    unfold fileBelongsToProject, eval, hasFile, SnapshotManager_has, gets,
      mbind, Host_bind, mret, Host_ret. simpl.
    by rewrite bool_decide_eq_true_2.
  - intros p.
    unfold fileBelongsToProject, eval, exec, hasFile, SnapshotManager_has,
      deleteSnapshot, deleteFromModuleCache, SnapshotManager_delete,
      setSnapshotManager, setModuleCache, emit, gets, modify,
      mbind, Host_bind, mret, Host_ret. simpl.
    rewrite lookup_delete_eq.
    rewrite bool_decide_eq_false_2 by (by intros [? ?]). simpl.
    by destruct (closureParsedConfig path).
Qed.

(** X17. When [createLanguageService] resolves, the container starts with
    the project files of the parsed configuration and with an empty snapshot
    cache ([snapshotManager.get] finds nothing for any path);
    strict mode follows the [strict] option of the project, which no forced
    option overrides; the engine is first told of the project files and the
    three Svelte declaration files. *)
Theorem createLanguageService_initial
    (path : string) (docContext : LanguageServiceDocumentContext)
    (container : LanguageServiceContainer) :
  createLanguageService path docContext = Some container →
  let parsed :=
    parsedConfigOf ScriptTarget_Latest ModuleKind_ESNext ModuleResolutionKind_NodeJs
      JsxEmit_Preserve ScriptKind_Deferred ignoredBuildDirectories readConfigFile
      parseJsonConfigFileContent dirname path in
  tsconfigPath container = path
  ∧ options <$> closureParsedConfig path = Some (compilerOptions container)
  ∧ strictMode (transformation container) = truthy (options parsed !! "strict")
  ∧ transformOnTemplateError (transformation container)
    = ctxTransformOnTemplateError docContext
  ∧ state container = initialState (fileNames parsed)
  ∧ (∀ p, eval (SnapshotManager_get p) (state container) = None)
  ∧ getScriptFileNames (state container)
    = arrayFromSet (fileNames parsed ++ svelteTsxFiles).
Proof.
  intros Hcreate. simpl.
  set (parsed := parsedConfigOf _ _ _ _ _ _ _ _ _ path).
  unfold createLanguageService in Hcreate.
  destruct (closureParsedConfig path) as [result|] eqn:Hresult;
    simpl in Hcreate; [|done].
  destruct (loadConfigs _); [|done]. injection Hcreate as <-. simpl.
  unfold closureParsedConfig, getParsedConfig in Hresult.
  fold parsed in Hresult.
  destruct (detectJsxFactory _ _ _) as [detected|] eqn:Hdetect;
    simpl in Hresult; [|done].
  injection Hresult as <-. simpl.
  split; [done|]. split; [done|]. split.
  { f_equal. rewrite (detectJsxFactory_other _ _ _ _ "strict" Hdetect) by done.
    by rewrite lookup_union_r. }
  split; [done|]. split; [done|]. split.
  { intros p. unfold eval, SnapshotManager_get, gets. simpl.
    apply lookup_empty. }
  unfold getScriptFileNames, SnapshotManager_getProjectFileNames,
    SnapshotManager_getFileNames. simpl.
  by rewrite map_to_list_empty.
Qed.

End CreateLanguageService.

(** *** The project [/w] assembled *)

Definition exampleCreateLanguageService : option LanguageServiceContainer :=
  createLanguageService 99 99 2 1 (Some Deferred) ["__sapper__"; ".svelte-kit"]
    exampleReadConfigFile exampleParse (λ _ _, None) (λ _, "/w") (λ _, true)
    "/w/tsconfig.json" {| ctxTransformOnTemplateError := true |}.

(** [svelte2tsx] cannot be resolved: the declaration files are looked for
    next to the module. *)
Definition exampleScriptFileNames : ContainerState → list string :=
  getScriptFileNames (λ _, "/w") (λ _, None) "/server/dist"
    (λ dir f, dir +:+ String.substring 1 (String.length f) f) (λ f, f).

Example getScriptFileNames_example :
  exampleScriptFileNames
    {| snapshotManager :=
         {| documents := documents (snapshotManager stateWithFile);
            projectFiles := ["/w/a.ts"; "/w/b.ts"; "/w/a.ts"] |};
       moduleCache := ∅; languageService := 0; servicesCreated := 1;
       disposedServices := []; effects := [] |}
  = [ "/w/a.ts"; "/w/b.ts";
      "/server/dist/svelte-shims.d.ts"; "/server/dist/svelte-jsx.d.ts";
      "/server/dist/svelte-native-jsx.d.ts" ].
Proof. reflexivity. Qed.

(** Witness of X17: the project [/w], whose configuration asks for strict
    checks. *)
Lemma createLanguageService_initial_witness :
  match exampleCreateLanguageService with
  | Some container =>
      strictMode (transformation container) = true
      ∧ ∀ p, eval (SnapshotManager_get p) (state container) = None
  | None => False
  end.
Proof.
  destruct exampleCreateLanguageService as [container|] eqn:Hcreate.
  - destruct (createLanguageService_initial 99 99 2 1 (Some Deferred)
                ["__sapper__"; ".svelte-kit"] exampleReadConfigFile exampleParse
                (λ _ _, None) (λ _, "/w") (λ _, None) "/server/dist"
                (λ dir f, dir +:+ f) (λ f, f) (λ _, true)
                "/w/tsconfig.json" {| ctxTransformOnTemplateError := true |}
                container Hcreate)
      as (_ & _ & Hstrict & _ & _ & Hempty & _).
    split; [exact Hstrict | exact Hempty].
  - vm_compute in Hcreate. discriminate Hcreate.
Defined.

End Service.
